(** * finwrap: the transformation pipeline, the rate resolver and the
      export reconciler, embedded from the Python sources

    Sources embedded here:
    - [src/finwrap/currency.py]  (module [currency])
    - [src/finwrap/models.py]    (module [models])
    - [src/finwrap/export/bagels.py] (module [bagels])

    Python values are modelled by their data, Python exceptions by a
    result type, and the two pieces of process state the code depends on
    (the memo table of [functools.cache] and the HTTP requests issued so
    far) by an explicit world threaded through a small state-and-error
    monad.  Polars expressions are modelled by their denotation: a
    function from a frame to a column, run in that monad. *)

From Stdlib Require Import ZArith String Ascii List Bool Lia QArith Qcanon.
From stdpp Require Import base list option strings numbers decidable pretty.

Open Scope string_scope.
Open Scope Z_scope.

(** * Numeric and string kernels of the runtime

    Python's [float] and Polars' [Float64] are IEEE binary64.  The
    development never relies on a law of floating-point arithmetic, so
    the type [f64] and its operations are an interface; so are the Polars
    string kernels whose algorithms live outside the repository. *)

Class F64 : Type := f64 : Type.

Class Kernels `{F64} : Type := {
  f64_eq_dec :: EqDecision f64;
  (** the literal [1.0] *)
  f64_one : f64;
  f64_sub : f64 → f64 → f64;
  f64_mul : f64 → f64 → f64;
  f64_abs : f64 → f64;
  (** [x > 0] *)
  f64_gt0 : f64 → bool;
  f64_leb : f64 → f64 → bool;
  f64_of_int : Z → f64;
  (** [cast(pl.Float64)] on one string; [None] when the conversion fails *)
  str_to_f64 : string → option f64;
  (** [str.to_datetime(format)] on one string, in microseconds since the
      epoch; [None] when the string does not parse *)
  str_to_datetime : option string → string → option Z;
  (** [str.replace_all(regex, value)] on one string *)
  str_replace_all_regex : string → string → string → string;
  (** [str.strip_chars()] on one string: outer whitespace removed *)
  str_strip_whitespace : string → string;
  (** [cast(pl.Int64)] on one double; [None] when it has no integer value *)
  f64_to_i64 : f64 → option Z;
  (** the text a datetime is stored as in an SQLite column *)
  datetime_to_text : Z → string;
}.

(** * Python exceptions and results *)

Inductive exn : Type :=
  | AssertionError (msg : string)
  | KeyError (key : string)
  | ValueError (msg : string)
  | AttributeError (msg : string)
  | ConnectionError (url : string)
  | JSONDecodeError
  | ColumnNotFoundError (name : string)
  | SchemaError (msg : string)
  | OperationalError (msg : string)
  | InvalidOperationError (msg : string).

Inductive result (A : Type) : Type :=
  | Ok (a : A)
  | Raise (e : exn).
Arguments Ok {A} a.
Arguments Raise {A} e.

Definition is_ok {A} (r : result A) : bool :=
  match r with Ok _ => true | Raise _ => false end.

Global Instance result_ret : MRet result := @Ok.
Global Instance result_bind : MBind result := fun A B f r =>
  match r with
  | Ok a => f a
  | Raise e => Raise e
  end.

(** The loaders and the store helpers around the pipeline raise a few
    exceptions the pipeline itself never does; [Inside] keeps one of the
    pipeline's. *)
Inductive raised : Type :=
  | Inside (e : exn)
  | IndexError (msg : string)
  | BinaryNotFoundError (msg : string)
  | NoSuchTableError (name : string).

Inductive outcome (A : Type) : Type :=
  | Returned (a : A)
  | Raised (e : raised).
Arguments Returned {A} a.
Arguments Raised {A} e.

(** * ASCII helpers for [str.lower], [str.upper] and number formatting *)

Definition ascii_lower (c : ascii) : ascii :=
  let n := N_of_ascii c in
  if ((65 <=? n) && (n <=? 90))%N then ascii_of_N (n + 32) else c.

Definition ascii_upper (c : ascii) : ascii :=
  let n := N_of_ascii c in
  if ((97 <=? n) && (n <=? 122))%N then ascii_of_N (n - 32) else c.

Fixpoint str_map (f : ascii → ascii) (s : string) : string :=
  match s with
  | EmptyString => EmptyString
  | String c s' => String (f c) (str_map f s')
  end.

(** [s.lower()] and [s.upper()], on the ASCII letters currency codes are
    written in. *)
Definition lower (s : string) : string := str_map ascii_lower s.
Definition upper (s : string) : string := str_map ascii_upper s.

Definition pad2 (n : Z) : string :=
  if n <? 10 then "0" ++ pretty n else pretty n.

(** ASCII whitespace, as [bytes.strip()] understands it. *)
Definition is_ascii_space (c : ascii) : bool :=
  let n := N_of_ascii c in ((n =? 32) || ((9 <=? n) && (n <=? 13)))%N.

Fixpoint bytes_lstrip (s : string) : string :=
  match s with
  | String c s' => if is_ascii_space c then bytes_lstrip s' else s
  | EmptyString => EmptyString
  end.

Fixpoint bytes_rstrip (s : string) : string :=
  match s with
  | EmptyString => EmptyString
  | String c s' =>
      match bytes_rstrip s' with
      | EmptyString => if is_ascii_space c then EmptyString else String c EmptyString
      | t => String c t
      end
  end.

(** [b.strip()] *)
Definition bytes_strip (s : string) : string := bytes_rstrip (bytes_lstrip s).

Definition LF : ascii := ascii_of_N 10.
Definition CR : ascii := ascii_of_N 13.

(** [b.splitlines()], with the line read so far in [cur]: a line ends at
    LF, CR or CR LF; the breaks are dropped; what follows the last break
    is a line only when it is not empty. *)
Fixpoint splitlines_from (cur s : string) : list string :=
  match s with
  | EmptyString => if decide (cur = EmptyString) then [] else [cur]
  | String c rest =>
      if Ascii.eqb c CR then
        match rest with
        | String c' rest' =>
            if Ascii.eqb c' LF then cur :: splitlines_from EmptyString rest'
            else cur :: splitlines_from EmptyString rest
        | EmptyString => [cur]
        end
      else if Ascii.eqb c LF then cur :: splitlines_from EmptyString rest
      else splitlines_from (cur ++ String c EmptyString) rest
  end.

Definition splitlines (s : string) : list string := splitlines_from EmptyString s.

(** * Calendar dates

    A [datetime] of Polars' [Datetime("us")] is a count of microseconds
    since 1970-01-01; a Python [date] is a count of days. *)

Definition us_per_day : Z := 86400000000.

(** Year, month and day of a day count (proleptic Gregorian calendar). *)
Definition civil_from_days (days : Z) : Z * Z * Z :=
  let z := days + 719468 in
  let era := z / 146097 in
  let doe := z - era * 146097 in
  let yoe := (doe - doe / 1460 + doe / 36524 - doe / 146096) / 365 in
  let doy := doe - (365 * yoe + yoe / 4 - yoe / 100) in
  let mp := (5 * doy + 2) / 153 in
  let d := doy - (153 * mp + 2) / 5 + 1 in
  let m := if mp <? 10 then mp + 3 else mp - 9 in
  let y := yoe + era * 400 + (if m <=? 2 then 1 else 0) in
  (y, m, d).

(** [d.strftime("%F")]: the ISO form [YYYY-MM-DD]. *)
Definition strftime_F_days (days : Z) : string :=
  let '(y, m, d) := civil_from_days days in
  pretty y ++ "-" ++ pad2 m ++ "-" ++ pad2 d.

(** The third argument of the resolver: [date | datetime | "latest"].
    [PyNone] is what a null of a date column becomes when Python iterates
    the column; it is neither a date nor a datetime, so it is formatted
    into the URL as it prints. *)
Inductive date_or_latest : Type :=
  | Latest
  | PyDate (days : Z)
  | PyDatetime (us : Z)
  | PyNone.

Global Instance date_or_latest_eq_dec : EqDecision date_or_latest.
Proof. solve_decision. Defined.

Definition date_str (d : date_or_latest) : string :=
  match d with
  | Latest => "latest"
  | PyDate days => strftime_F_days days
  | PyDatetime us => strftime_F_days (us / us_per_day)
  | PyNone => "None"
  end.

(** * The process: rate service, memo table, request log *)

Section Process.
Context `{Kernels}.

(** What the rate service answers to one GET: a status code and a body.
    The body is [None] when it is not JSON; otherwise it is the decoded
    object read as [payload.get(frm, {}).get(to)], [None] standing for a
    missing key at either level. *)
Record response : Type := {
  status_code : Z;
  json : option (string → string → option f64);
}.

(** The service seen from the process: the answer to the [n]-th request
    of the run (counted from 0) for a URL; [None] when [requests.get]
    itself fails. *)
Definition service : Type := nat → string → option response.

(** The memo key of [functools.cache]: the argument tuple as passed. *)
Definition memo_key : Type := string * string * date_or_latest * option f64.

Record world : Type := {
  (** URLs requested so far, oldest first *)
  fetched : list string;
  (** the table behind [@cache], newest entry first *)
  memo : list (memo_key * option f64);
}.

Definition world0 : world := {| fetched := []; memo := [] |}.

(** Computations that read the service, change the world and may raise.
    A raise keeps the world reached so far. *)
Definition M (A : Type) : Type := service → world → result A * world.

Definition ret {A} (a : A) : M A := fun _ w => (Ok a, w).
Definition raise {A} (e : exn) : M A := fun _ w => (Raise e, w).
Definition bind {A B} (m : M A) (k : A → M B) : M B :=
  fun sv w =>
    match m sv w with
    | (Ok a, w') => k a sv w'
    | (Raise e, w') => (Raise e, w')
    end.
Definition lift {A} (r : result A) : M A := fun _ w => (r, w).

(** [requests.get(url)] *)
Definition requests_get (url : string) : M response :=
  fun sv w =>
    let w' := {| fetched := fetched w ++ [url]; memo := memo w |} in
    match sv (length (fetched w)) url with
    | Some r => (Ok r, w')
    | None => (Raise (ConnectionError url), w')
    end.

(** [response.json()] *)
Definition response_json (r : response) : M (string → string → option f64) :=
  match json r with
  | Some payload => ret payload
  | None => raise JSONDecodeError
  end.

(** Lookup in the memo table: an entry answers the calls whose argument
    tuple equals its key. *)
Fixpoint memo_get (k : memo_key) (tbl : list (memo_key * option f64))
  : option (option f64) :=
  match tbl with
  | [] => None
  | (k', v) :: tbl' => if decide (k = k') then Some v else memo_get k tbl'
  end.

Definition memo_put (k : memo_key) (v : option f64) (w : world) : world :=
  {| fetched := fetched w; memo := (k, v) :: memo w |}.

(** Sequencing a list of computations, left to right. *)
Fixpoint mapM {A B} (f : A → M B) (l : list A) : M (list B) :=
  match l with
  | [] => ret []
  | a :: l' => bind (f a) (fun b => bind (mapM f l') (fun bs => ret (b :: bs)))
  end.
End Process.

Notation "x <- m ;; k" := (bind m (fun x => k))
  (at level 100, m at next level, right associativity, only parsing).

(** * Frames and expressions: the Polars operations the sources call

    A frame is a schema and its rows; an expression denotes a function
    from a frame to a column.  Expressions run in [M] because two of them
    ([map_elements], [map_batches]) call back into Python. *)

Fixpoint drop_prefix (p s : string) : option string :=
  match p, s with
  | EmptyString, _ => Some s
  | String a p', String b s' =>
      if Ascii.eqb a b then drop_prefix p' s' else None
  | String _ _, EmptyString => None
  end.

(** [str.replace(pattern, value)] on one string, for a pattern without
    regex metacharacters: Polars' default [n=1] rewrites the first
    match only and leaves the rest of the string as it is. *)
Fixpoint str_replace_n1 (pattern value s : string) : string :=
  match drop_prefix pattern s with
  | Some rest => value ++ rest
  | None =>
      match s with
      | EmptyString => EmptyString
      | String c s' => String c (str_replace_n1 pattern value s')
      end
  end.

(** Two's-complement wrap-around of [Int64] arithmetic. *)
Definition wrap64 (z : Z) : Z := (z + 2 ^ 63) mod 2 ^ 64 - 2 ^ 63.

Module pl.
Section Frames.
Context `{Kernels}.

Inductive dtype : Type := String_ | Float64 | Int64 | Datetime | Boolean.

Inductive cell : Type :=
  | Null
  | Str (s : string)
  | F64 (x : f64)
  | I64 (n : Z)
  | Dt (us : Z)
  | Bool (b : bool).

Global Instance dtype_eq_dec : EqDecision dtype.
Proof. solve_decision. Defined.
Global Instance cell_eq_dec : EqDecision cell.
Proof. solve_decision. Defined.

Record Series : Type := { dtype_of : dtype; values : list cell }.

Record DataFrame : Type := {
  schema : list (string * dtype);
  rows : list (list cell);
}.

Definition columns (df : DataFrame) : list string := (schema df).*1.

Fixpoint index_of (name : string) (names : list string) : option nat :=
  match names with
  | [] => None
  | n :: names' =>
      if decide (name = n) then Some 0%nat else S <$> index_of name names'
  end.

Definition get_column (df : DataFrame) (name : string) : result Series :=
  match index_of name (columns df) with
  | Some i =>
      Ok {| dtype_of := default String_ (snd <$> schema df !! i);
            values := (fun r : list cell => default Null (r !! i)) <$> rows df |}
  | None => Raise (ColumnNotFoundError name)
  end.

Definition Expr : Type := DataFrame → M Series.

Fixpoint result_mapM {A B} (f : A → result B) (l : list A) : result (list B) :=
  match l with
  | [] => Ok []
  | a :: l' =>
      match f a with
      | Ok b =>
          match result_mapM f l' with
          | Ok bs => Ok (b :: bs)
          | Raise e => Raise e
          end
      | Raise e => Raise e
      end
  end.

Definition map_cells (out : dtype) (f : cell → result cell) (s : Series)
  : result Series :=
  match result_mapM f (values s) with
  | Ok vs => Ok {| dtype_of := out; values := vs |}
  | Raise e => Raise e
  end.

(** [pl.col(name)]; [.alias(...)] only renames and has no counterpart. *)
Definition col (name : string) : Expr := fun df => lift (get_column df name).

(** [pl.lit(v)], broadcast to the height of the frame. *)
Definition lit (d : dtype) (v : cell) : Expr :=
  fun df => ret {| dtype_of := d; values := replicate (length (rows df)) v |}.

(** An operation of the [.str] namespace: it needs a String column and
    maps nulls to nulls. *)
Definition str_op (out : dtype) (f : string → result cell) (e : Expr) : Expr :=
  fun df =>
    s <- e df ;;
    match dtype_of s with
    | String_ =>
        lift (map_cells out
                (fun c => match c with Str x => f x | _ => Ok Null end) s)
    | _ => raise (InvalidOperationError "expected String")
    end.

Definition str_replace (pattern value : string) : Expr → Expr :=
  str_op String_ (fun x => Ok (Str (str_replace_n1 pattern value x))).

Definition str_replace_all (regex value : string) : Expr → Expr :=
  str_op String_ (fun x => Ok (Str (str_replace_all_regex regex value x))).

Definition str_strip_chars : Expr → Expr :=
  str_op String_ (fun x => Ok (Str (str_strip_whitespace x))).

(** [str.to_datetime(format)], strict: a string that does not parse
    fails the whole expression. *)
Definition str_to_datetime_ (format : option string) : Expr → Expr :=
  str_op Datetime
    (fun x =>
       match str_to_datetime format x with
       | Some us => Ok (Dt us)
       | None => Raise (InvalidOperationError "conversion from str to datetime failed")
       end).

(** [cast(pl.Float64)], strict. *)
Definition cast_Float64 (e : Expr) : Expr :=
  fun df =>
    s <- e df ;;
    lift (map_cells Float64
            (fun c =>
               match c with
               | Null => Ok Null
               | Str x =>
                   match str_to_f64 x with
                   | Some v => Ok (F64 v)
                   | None => Raise (InvalidOperationError "conversion from str to f64 failed")
                   end
               | F64 v => Ok (F64 v)
               | I64 n => Ok (F64 (f64_of_int n))
               | Dt us => Ok (F64 (f64_of_int us))
               | Bool b => Ok (F64 (f64_of_int (if b then 1 else 0)))
               end) s).

(** [cast(pl.Datetime("us"))] of a temporal or integer column; columns
    of another type are outside what the sources feed it and are
    reported as an invalid operation. *)
Definition cast_Datetime_us (e : Expr) : Expr :=
  fun df =>
    s <- e df ;;
    match dtype_of s with
    | Datetime | Int64 =>
        lift (map_cells Datetime
                (fun c => match c with
                          | Dt us => Ok (Dt us)
                          | I64 n => Ok (Dt n)
                          | _ => Ok Null
                          end) s)
    | _ => raise (InvalidOperationError "cast to Datetime")
    end.

Definition as_f64 (c : cell) : option f64 :=
  match c with
  | F64 v => Some v
  | I64 n => Some (f64_of_int n)
  | _ => None
  end.

Definition is_numeric (d : dtype) : bool :=
  match d with Float64 | Int64 => true | _ => false end.

(** Element-wise arithmetic with null propagation: Int64 with Int64
    stays Int64, any other pair of numeric columns is Float64. *)
Definition arith (fop : f64 → f64 → f64) (zop : Z → Z → Z) (a b : Expr) : Expr :=
  fun df =>
    x <- a df ;;
    y <- b df ;;
    match dtype_of x, dtype_of y with
    | Int64, Int64 =>
        ret {| dtype_of := Int64;
               values := zip_with (fun c d =>
                                     match c, d with
                                     | I64 m, I64 n => I64 (wrap64 (zop m n))
                                     | _, _ => Null
                                     end) (values x) (values y) |}
    | dx, dy =>
        if is_numeric dx && is_numeric dy then
          ret {| dtype_of := Float64;
                 values := zip_with (fun c d =>
                                       match as_f64 c, as_f64 d with
                                       | Some u, Some v => F64 (fop u v)
                                       | _, _ => Null
                                       end) (values x) (values y) |}
        else raise (InvalidOperationError "arithmetic on non-numeric columns")
    end.

Definition sub : Expr → Expr → Expr := arith f64_sub Z.sub.
Definition mul : Expr → Expr → Expr := arith f64_mul Z.mul.

(** [e != "literal"] on a String column; a null compares to null. *)
Definition ne_str (e : Expr) (literal : string) : Expr :=
  str_op Boolean (fun x => Ok (Bool (negb (String.eqb x literal)))) e.

(** [pl.when(p).then(a).otherwise(b)].  Polars evaluates the predicate
    and both branches on every row of the frame and only then picks,
    row by row, the value of [a] where the predicate is true and the
    value of [b] elsewhere (a null predicate counts as false): a branch
    is not skipped for the rows the other branch wins. *)
Definition when_then_otherwise (p a b : Expr) : Expr :=
  fun df =>
    mask <- p df ;;
    t <- a df ;;
    f <- b df ;;
    ret {| dtype_of := dtype_of t;
           values := zip_with (fun m xy => match m with
                                           | Bool true => fst xy
                                           | _ => snd xy
                                           end)
                       (values mask) (zip (values t) (values f)) |}.

Definition of_rate (r : option f64) : cell :=
  match r with Some v => F64 v | None => Null end.

(** [e.map_elements(f, return_dtype=pl.Float64)]: the Python function is
    called on each non-null element, top to bottom. *)
Definition map_elements (f : cell → M (option f64)) (e : Expr) : Expr :=
  fun df =>
    s <- e df ;;
    vs <- mapM (fun c => match c with
                         | Null => ret Null
                         | _ => r <- f c ;; ret (of_rate r)
                         end) (values s) ;;
    ret {| dtype_of := Float64; values := vs |}.

(** [pl.struct(a, b).map_batches(f, return_dtype=pl.Float64)]: the Python
    function is called once, on the two whole columns. *)
Definition struct_map_batches
    (f : list cell → list cell → M (list (option f64))) (a b : Expr) : Expr :=
  fun df =>
    x <- a df ;;
    y <- b df ;;
    rs <- f (values x) (values y) ;;
    ret {| dtype_of := Float64; values := of_rate <$> rs |}.
(** [e.abs()] *)
Definition abs (e : Expr) : Expr :=
  fun df =>
    s <- e df ;;
    if is_numeric (dtype_of s) then
      lift (map_cells (dtype_of s)
              (fun c => match c with
                        | F64 v => Ok (F64 (f64_abs v))
                        | I64 n => Ok (I64 (wrap64 (Z.abs n)))
                        | _ => Ok Null
                        end) s)
    else raise (InvalidOperationError "abs on a non-numeric column").

(** [e > 0] *)
Definition gt_zero (e : Expr) : Expr :=
  fun df =>
    s <- e df ;;
    if is_numeric (dtype_of s) then
      lift (map_cells Boolean
              (fun c => match c with
                        | F64 v => Ok (Bool (f64_gt0 v))
                        | I64 n => Ok (Bool (0 <? n))
                        | _ => Ok Null
                        end) s)
    else raise (InvalidOperationError "comparison of a non-numeric column").

(** [e == k] for an integer literal [k], on an integer or boolean column *)
Definition eq_int (k : Z) (e : Expr) : Expr :=
  fun df =>
    s <- e df ;;
    match dtype_of s with
    | Int64 | Boolean =>
        lift (map_cells Boolean
                (fun c => match c with
                          | I64 n => Ok (Bool (n =? k))
                          | Bool b => Ok (Bool ((if b then 1 else 0) =? k))
                          | _ => Ok Null
                          end) s)
    | _ => raise (InvalidOperationError "comparison with an integer")
    end.

(** [cast(pl.Int64)], strict, of a numeric, boolean or temporal column. *)
Definition cast_Int64 (e : Expr) : Expr :=
  fun df =>
    s <- e df ;;
    match dtype_of s with
    | String_ => raise (InvalidOperationError "cast of a String column to Int64")
    | _ =>
        lift (map_cells Int64
                (fun c => match c with
                          | I64 n => Ok (I64 n)
                          | Dt us => Ok (I64 us)
                          | Bool b => Ok (I64 (if b then 1 else 0))
                          | F64 v =>
                              match f64_to_i64 v with
                              | Some n => Ok (I64 n)
                              | None => Raise (InvalidOperationError "conversion from f64 to i64 failed")
                              end
                          | _ => Ok Null
                          end) s)
    end.

(** ** Operations on whole frames *)

Definition LazyFrame : Type := M DataFrame.

Definition height (df : DataFrame) : nat := length (rows df).

(** [df.select(name1=e1, ...)]: the expressions are evaluated in the
    order written, on the same frame. *)
Definition select (named : list (string * Expr)) (df : DataFrame) : M DataFrame :=
  cols <- mapM (fun ne : string * Expr => ne.2 df) named ;;
  ret {| schema := zip (named.*1) (dtype_of <$> cols);
         rows := (fun i => (fun c => default Null (values c !! i)) <$> cols)
                   <$> seq 0 (height df) |}.

(** The order [sort] uses within a column: nulls first, then the values
    in ascending order. *)
Definition cell_leb (a b : cell) : bool :=
  match a, b with
  | Null, _ => true
  | _, Null => false
  | Str x, Str y => String.leb x y
  | F64 x, F64 y => f64_leb x y
  | I64 m, I64 n => m <=? n
  | Dt m, Dt n => m <=? n
  | Bool x, Bool y => implb x y
  | _, _ => true
  end.

Fixpoint insert_by (i : nat) (r : list cell) (sorted : list (list cell))
  : list (list cell) :=
  match sorted with
  | [] => [r]
  | r' :: rest =>
      if cell_leb (default Null (r' !! i)) (default Null (r !! i))
      then r' :: insert_by i r rest
      else r :: r' :: rest
  end.

(** [df.sort(by)]: ascending, rows with equal keys kept in source order. *)
Definition sort (by_ : string) (df : DataFrame) : result DataFrame :=
  match index_of by_ (columns df) with
  | Some i =>
      Ok {| schema := schema df;
            rows := foldl (fun acc r => insert_by i r acc) [] (rows df) |}
  | None => Raise (ColumnNotFoundError by_)
  end.

(** [df.unique()]: one row of each group of identical rows survives
    (which one, and in which order, Polars leaves open). *)
Definition unique (df : DataFrame) : DataFrame :=
  {| schema := schema df; rows := remove_dups (rows df) |}.

(** [pl.concat(frames, how="vertical")] on lazy frames.  An empty list
    is refused when the call is made; the schemas are compared, and the
    rows appended in list order, when the result is collected. *)
Fixpoint concat_rows (sch : list (string * dtype)) (frames : list LazyFrame)
  : M (list (list cell)) :=
  match frames with
  | [] => ret []
  | f :: frames' =>
      df <- f ;;
      if decide (schema df = sch) then
        rest <- concat_rows sch frames' ;;
        ret (rows df ++ rest)%list
      else raise (SchemaError "schemas of the frames to concatenate differ")
  end.

Definition concat (frames : list LazyFrame) : result LazyFrame :=
  match frames with
  | [] => Raise (ValueError "cannot concat empty list")
  | f :: frames' =>
      Ok (df <- f ;;
          rest <- concat_rows (schema df) frames' ;;
          ret {| schema := schema df; rows := (rows df ++ rest)%list |})
  end.
(** [df.fill_null(value)] for a string [value]: only the String columns
    are filled. *)
Definition fill_null_str (value : string) (df : DataFrame) : DataFrame :=
  {| schema := schema df;
     rows := (fun r => zip_with (fun (nd : string * dtype) c =>
                                   match nd.2, c with
                                   | String_, Null => Str value
                                   | _, _ => c
                                   end) (schema df) r) <$> rows df |}.

(** ** Joins *)

Definition indices (on : list string) (df : DataFrame) : result (list nat) :=
  result_mapM (fun n => match index_of n (columns df) with
                        | Some i => Ok i
                        | None => Raise (ColumnNotFoundError n)
                        end) on.

Definition key_of (idx : list nat) (r : list cell) : list cell :=
  (fun i => default Null (r !! i)) <$> idx.

Definition key_dtypes (idx : list nat) (df : DataFrame) : list (option dtype) :=
  (fun i => snd <$> schema df !! i) <$> idx.

(** Two keys match when they are equal column by column and hold no
    null: in a join a null key matches nothing, not even another null. *)
Definition keys_match (k1 k2 : list cell) : bool :=
  bool_decide (k1 = k2) && forallb (fun c => negb (bool_decide (c = Null))) k1.

Definition has_match (li ri : list nat) (right : DataFrame) (r : list cell) : bool :=
  existsb (fun e => keys_match (key_of li r) (key_of ri e)) (rows right).

Definition without {A} (idx : list nat) (l : list A) : list A :=
  omap id (imap (fun i x => if decide (i ∈ idx) then None else Some x) l).

Definition check_keys (on : list string) (left right : DataFrame)
  : result (list nat * list nat) :=
  li ← indices on left;
  ri ← indices on right;
  if decide (key_dtypes li left = key_dtypes ri right) then Ok (li, ri)
  else Raise (SchemaError "datatypes of join keys don't match").

(** [left.join(right, on=..., how="anti")]: the rows of [left] that have
    no match in [right]. *)
Definition join_anti (on : list string) (left right : DataFrame) : result DataFrame :=
  '(li, ri) ← check_keys on left right;
  Ok {| schema := schema left;
        rows := List.filter (fun r => negb (has_match li ri right r)) (rows left) |}.

(** [left.join(right, on=..., how="inner")]: one row for every pair of
    matching rows, the non-key columns of [right] appended. *)
Definition join_inner (on : list string) (left right : DataFrame) : result DataFrame :=
  '(li, ri) ← check_keys on left right;
  Ok {| schema := (schema left ++ without ri (schema right))%list;
        rows := r ← rows left;
                e ← List.filter (fun e => keys_match (key_of li r) (key_of ri e))
                      (rows right);
                [(r ++ without ri e)%list] |}.

(** [lf.count().collect().item(0, 0)]: the number of non-null values of
    the first column. *)
Definition count_item_0_0 (df : DataFrame) : Z :=
  Z.of_nat (length (List.filter (fun r => negb (bool_decide (default Null (r !! 0%nat) = Null)))
                      (rows df))).

Definition is_empty (df : DataFrame) : bool := bool_decide (rows df = []).

(** An expression that computes from the frame alone: what it yields does
    not depend on the service or on the world, and it leaves the world
    as it found it. *)
Definition offline (e : Expr) : Prop :=
  ∃ g : DataFrame → result Series, ∀ df sv w, e df sv w = (g df, w).
End Frames.
End pl.

(** * currency.py: the rate resolver *)

Module currency.
Section Resolver.
Context `{Kernels}.

(** [BASE_URL.format(currency=..., date=...)] *)
Definition BASE_URL_format (currency date : string) : string :=
  "https://cdn.jsdelivr.net/npm/@fawazahmed0/currency-api@" ++ date
    ++ "/v1/currencies/" ++ currency ++ ".json".

Definition unable_to_fetch (from_currency to_currency : string) : string :=
  "Unable to fetch exchange rate for " ++ upper from_currency ++ "/"
    ++ upper to_currency ++ " and no default_rate was specified.".

(** The body of [get_currency_rate], without its [@cache] decorator (its
    log line has no effect on what follows and is left out). *)
Definition get_currency_rate__wrapped
    (from_currency to_currency : string) (date_input : date_or_latest)
    (default_rate : option f64) : M (option f64) :=
  let from_currency := lower from_currency in
  let to_currency := lower to_currency in
  let url := BASE_URL_format from_currency (date_str date_input) in
  response <- requests_get url ;;
  if status_code response mod 200 =? 0 then
    payload <- response_json response ;;
    match payload from_currency to_currency, default_rate with
    | None, None => raise (ValueError (unable_to_fetch from_currency to_currency))
    | Some rate, _ => ret (Some rate)
    | None, Some _ => ret default_rate
    end
  else ret default_rate.

(** [get_currency_rate] as decorated: a hit returns the memoised value
    without running the body; a miss runs the body and memoises the value
    it returns.  A call that raises stores nothing. *)
Definition get_currency_rate
    (from_currency to_currency : string) (date_input : date_or_latest)
    (default_rate : option f64) : M (option f64) :=
  fun sv w =>
    let key := (from_currency, to_currency, date_input, default_rate) in
    match memo_get key (memo w) with
    | Some v => (Ok v, w)
    | None =>
        match get_currency_rate__wrapped from_currency to_currency
                date_input default_rate sv w with
        | (Ok v, w') => (Ok v, memo_put key v w')
        | (Raise e, w') => (Raise e, w')
        end
    end.

(** [get_currency_rate_batches].  The two arguments are Series, whose
    elements are [str] (or [None] for a null) and dates.  The generator
    calls the resolver with three arguments, so the resolver's own
    [default_rate=None] applies whatever [default_rate] was passed in;
    [zip] stops at the shorter Series; the first raise aborts the
    construction.  A [None] currency fails in the resolver's
    [from_currency.lower()], after the memo lookup missed. *)
Definition get_currency_rate_batches
    (from_currency : list (option string)) (to_currency : string)
    (date_input : list date_or_latest) (default_rate : option f64)
  : M (list (option f64)) :=
  mapM (fun cd : option string * date_or_latest =>
          match cd.1 with
          | Some c => get_currency_rate c to_currency cd.2 None
          | None => raise (AttributeError "object has no attribute 'lower'")
          end)
       (zip from_currency date_input).

(** Any number of calls to the resolver, one after the other, whatever
    they return: the world they leave. *)
Fixpoint run_calls (calls : list memo_key) (sv : service) (w : world) : world :=
  match calls with
  | [] => w
  | (frm, to, d, dr) :: calls' =>
      run_calls calls' sv (snd (get_currency_rate frm to d dr sv w))
  end.

(** Two calls with the same argument tuple, the second right after the
    first: both return the same value and at most one request was
    issued between the world before and the world after. *)
Definition idempotent_at (sv : service) (w : world) (k : memo_key) : Prop :=
  let '(frm, to, d, dr) := k in
  ∃ v w1 w2,
    get_currency_rate frm to d dr sv w = (Ok v, w1)
    ∧ get_currency_rate frm to d dr sv w1 = (Ok v, w2)
    ∧ (length (fetched w2) ≤ S (length (fetched w)))%nat.
End Resolver.

Section CurrencyModel.
Context `{Kernels}.

Inductive strategy_t : Type := dynamic | latest.

Record Currency : Type := {
  currency_col : string;
  convert_to : string;
  default_rate : option f64;
  strategy : strategy_t;
}.

(** What iterating a Polars Series hands to Python: a [str] for a
    string, [None] for a null. *)
Definition py_str (c : pl.cell) : option string :=
  match c with pl.Str s => Some s | _ => None end.

Definition py_date (c : pl.cell) : date_or_latest :=
  match c with pl.Dt us => PyDatetime us | _ => PyNone end.

(** The lambda of the "latest" branch. *)
Definition latest_lambda (self : Currency) (x : pl.cell) : M (option f64) :=
  match py_str x with
  | Some x => get_currency_rate x (convert_to self) Latest (default_rate self)
  | None => raise (AttributeError "object has no attribute 'lower'")
  end.

(** The lambda of the "dynamic" branch. *)
Definition dynamic_lambda (self : Currency) (cs ds : list pl.cell)
  : M (list (option f64)) :=
  get_currency_rate_batches (py_str <$> cs) (convert_to self)
    (py_date <$> ds) (default_rate self).

(** [Currency.rate].  The strategy is one of the two literals the class
    admits, so the final [raise ValueError] of the source has no case. *)
Definition Currency_rate (self : Currency) (date_expr : pl.Expr) : pl.Expr :=
  let currency_col := pl.col (currency_col self) in
  let date_col := date_expr in
  match strategy self with
  | dynamic =>
      pl.when_then_otherwise
        (pl.ne_str currency_col (convert_to self))
        (pl.struct_map_batches (dynamic_lambda self) currency_col date_col)
        (pl.lit pl.Float64 (pl.F64 f64_one))
  | latest =>
      pl.when_then_otherwise
        (pl.ne_str currency_col (convert_to self))
        (pl.map_elements (latest_lambda self) currency_col)
        (pl.lit pl.Float64 (pl.F64 f64_one))
  end.
End CurrencyModel.
End currency.

(** * models.py: accounts and collections of accounts *)

(** [repr] of a list of strings, as an f-string prints it (for names
    without quotes or escapes). *)
Definition py_repr_list (l : list string) : string :=
  "[" ++ String.concat ", " ((fun s => "'" ++ s ++ "'") <$> l) ++ "]".

Module models.
Import currency.

Inductive FileType : Type := CSV | PARQUET | EXCEL | EXCEL_OLD.

(** [ft.value] *)
Definition FileType_value (ft : FileType) : string :=
  match ft with
  | CSV => ".csv"
  | PARQUET => ".parquet"
  | EXCEL => ".xlsx"
  | EXCEL_OLD => ".xls"
  end.

(** The members of the enumeration, in the order [for ft in FileType]
    visits them. *)
Definition FileType_members : list FileType := [CSV; PARQUET; EXCEL; EXCEL_OLD].

(** [FilePath]: a list of paths, or one path. *)
Inductive FilePath : Type :=
  | Paths (file_path : list string)
  | OnePath (file_path : string).

Section Loading.
(** What a reader returns (and how it may fail) is the reader's affair. *)
Context {R : Type}.
(** [Path(p).suffix] *)
Variable suffix : string → string.
Variable FILE_READERS : FileType → list string → R.

(** The list branch of [_read_data]. *)
Definition _read_data_list (file_path : list string) : outcome R :=
  match file_path with
  | [] => Raised (IndexError "list index out of range")
  | first :: _ =>
      let suffix_ := suffix first in
      match List.find (fun ft => bool_decide (FileType_value ft = suffix_))
              FileType_members with
      | None =>
          Raised (Inside (ValueError
                            ("Unsupported file type for " ++ py_repr_list file_path
                               ++ " with suffix " ++ suffix_)))
      | Some file_type =>
          if forallb (fun p => bool_decide (suffix p = suffix_)) file_path
          then Returned (FILE_READERS file_type file_path)
          else Raised (Inside (ValueError "All files must have the same suffix"))
      end
  end.

(** [_read_data]: one path is read as the list of that path. *)
Definition _read_data (file_path : FilePath) : outcome R :=
  match file_path with
  | Paths file_path => _read_data_list file_path
  | OnePath file_path => _read_data_list [file_path]
  end.
End Loading.
Section Models.
Context `{Kernels}.

(** An [Account].  [data] is the source as loaded by [_read_data];
    [data_schema] is its schema, as the default factory computes it. *)
Record Account : Type := {
  name : string;
  date_col : string;
  transaction_col : string;
  amount_col : string;
  date_col_format : option string;
  currency : option Currency;
  fees_col : option string;
  transaction_col_cleaning_regex : option string;
  data : pl.DataFrame;
}.

Definition data_schema (self : Account) : list (string * pl.dtype) :=
  pl.schema (data self).

(** [schema[name]] *)
Fixpoint schema_getitem (sch : list (string * pl.dtype)) (name : string)
  : result pl.dtype :=
  match sch with
  | [] => Raise (KeyError name)
  | (n, d) :: sch' => if decide (name = n) then Ok d else schema_getitem sch' name
  end.

(** Truthiness of an optional string: [None] and [""] are false. *)
Definition truthy (o : option string) : option string :=
  match o with
  | Some "" => None
  | _ => o
  end.

Definition Account_date (self : Account) : result pl.Expr :=
  schema ← schema_getitem (data_schema self) (date_col self);
  match schema with
  | pl.String_ =>
      Ok (pl.cast_Datetime_us
            (pl.str_to_datetime_ (date_col_format self) (pl.col (date_col self))))
  | _ => Ok (pl.cast_Datetime_us (pl.col (date_col self)))
  end.

Definition Account_transaction (self : Account) : pl.Expr :=
  let col := pl.col (transaction_col self) in
  let col := match truthy (transaction_col_cleaning_regex self) with
             | Some regex => pl.str_replace_all regex "" col
             | None => col
             end in
  pl.str_strip_chars col.

Definition Account_amount (self : Account) : result pl.Expr :=
  schema ← schema_getitem (data_schema self) (amount_col self);
  let amount_val :=
    match schema with
    | pl.String_ =>
        pl.cast_Float64 (pl.str_replace "," "" (pl.col (amount_col self)))
    | _ => pl.col (amount_col self)
    end in
  let amount_val :=
    match truthy (fees_col self) with
    | Some fees => pl.sub amount_val (pl.col fees)
    | None => amount_val
    end in
  match currency self with
  | Some c =>
      date ← Account_date self;
      Ok (pl.mul amount_val (Currency_rate c date))
  | None => Ok amount_val
  end.

Definition assert_message (col : string) (cols : list string) : string :=
  col ++ " is not in data columns: " ++ py_repr_list cols ++ ". col=" ++ col
    ++ "; cols: " ++ py_repr_list cols.

(** The [for ... assert] loop of [get_data]. *)
Fixpoint assert_columns (self : Account) (cols : list string) : result unit :=
  match cols with
  | [] => Ok ()
  | col :: cols' =>
      if decide (col ∈ pl.columns (data self)) then assert_columns self cols'
      else Raise (AssertionError (assert_message col (pl.columns (data self))))
  end.

(** [Account.get_data].  The assertions and the three property reads
    happen when the method is called; sorting, selecting and removing
    duplicates happen when the returned lazy frame is collected. *)
Definition Account_get_data (self : Account) : result pl.LazyFrame :=
  _ ← assert_columns self
        [date_col self; transaction_col self; transaction_col self];
  date ← Account_date self;
  let transaction := Account_transaction self in
  amount ← Account_amount self;
  Ok (sorted <- lift (pl.sort (date_col self) (data self)) ;;
      selected <- pl.select
                    [("account_name", pl.lit pl.String_ (pl.Str (name self)));
                     ("date", date);
                     ("transaction", transaction);
                     ("amount", amount)] sorted ;;
      ret (pl.unique selected)).

(** [x.get_data().collect()]: what [get_data] raises when it is called
    and what the frame raises when it is collected are both a raise of
    the whole. *)
Definition collected (lf : result pl.LazyFrame) : M pl.DataFrame :=
  match lf with
  | Ok lf => lf
  | Raise e => raise e
  end.

Record AccountCollection : Type := { accounts : list Account }.

Definition AccountCollection_get_data (self : AccountCollection)
  : result pl.LazyFrame :=
  frames ← pl.result_mapM Account_get_data (accounts self);
  pl.concat frames.
End Models.
End models.

(** * export/bagels.py: reconciling against the store *)

Module bagels.
Import models.
Section Reconciler.
Context `{Kernels}.

(** Modelled from the spec: the three tables of the external store
    (the Bagels database, whose table definitions are not part of the
    repository), with the columns section 6 of the specification lists
    and the [id] column the sources select.  Timestamps are held as the
    store holds them: as text in the record table. *)
Record account_row : Type := {
  account_id : Z;
  account_name : string;
  description : string;
  account_createdAt : Z;
  account_updatedAt : Z;
  beginningBalance : f64;
  hidden : Z;
}.

Record category_row : Type := {
  category_id : Z;
  category_name : string;
  category_createdAt : Z;
  category_updatedAt : Z;
  nature : string;
  color : string;
}.

Record record_row : Type := {
  record_id : Z;
  createdAt : pl.cell;
  updatedAt : pl.cell;
  label : pl.cell;
  amount : pl.cell;
  date : pl.cell;
  accountId : pl.cell;
  categoryId : pl.cell;
  isIncome : pl.cell;
  isInProgress : pl.cell;
  isTransfer : pl.cell;
}.

(** The database behind a [Connection]. *)
Record Store : Type := {
  account : list account_row;
  category : list category_row;
  record : list record_row;
}.

(** The [id] an insert receives: one more than the largest in use. *)
Definition next_id (ids : list Z) : Z := 1 + foldr Z.max 0 ids.

(** [create_cateogry]: inserts a category row, commits, and returns the
    first [id] among the rows of that name. *)
Definition create_cateogry (name color : string) (now : Z) (conn : Store)
  : Z * Store :=
  let new := {| category_id := next_id (category_id <$> category conn);
                category_name := name;
                category_createdAt := now;
                category_updatedAt := now;
                nature := "NEED";
                color := color |} in
  let conn := {| account := account conn;
                 category := (category conn ++ [new])%list;
                 record := record conn |} in
  (hd (category_id new)
      (category_id <$> List.filter (fun c => bool_decide (category_name c = name))
                         (category conn)),
   conn).

Definition insert_account (name : string) (now : Z) (conn : Store) : Store :=
  {| account := (account conn
                 ++ [{| account_id := next_id (account_id <$> account conn);
                        account_name := name;
                        description := "Imported with finwrap";
                        account_createdAt := now;
                        account_updatedAt := now;
                        beginningBalance := f64_of_int 0;
                        hidden := 0 |}])%list;
     category := category conn;
     record := record conn |}.

(** [create_accounts]: the existing names are read once, before the loop. *)
Definition create_accounts (account_names : list string) (now : Z) (conn : Store)
  : Store :=
  let existing_accounts := account_name <$> account conn in
  foldl (fun conn name =>
           if decide (name ∈ existing_accounts) then conn
           else insert_account name now conn)
        conn account_names.

Definition account_schema : list (string * pl.dtype) :=
  [("id", pl.Int64); ("name", pl.String_); ("description", pl.String_);
   ("createdAt", pl.String_); ("updatedAt", pl.String_);
   ("beginningBalance", pl.Float64); ("hidden", pl.Int64)].

Definition record_schema : list (string * pl.dtype) :=
  [("id", pl.Int64); ("createdAt", pl.String_); ("updatedAt", pl.String_);
   ("label", pl.String_); ("amount", pl.Float64); ("date", pl.String_);
   ("accountId", pl.Int64); ("categoryId", pl.Int64); ("isIncome", pl.Int64);
   ("isInProgress", pl.Int64); ("isTransfer", pl.Int64)].

Definition category_schema : list (string * pl.dtype) :=
  [("id", pl.Int64); ("name", pl.String_); ("createdAt", pl.String_);
   ("updatedAt", pl.String_); ("nature", pl.String_); ("color", pl.String_)].

(** [get_table]: the table is read when the call is made ([SELECT *]),
    then wrapped as a lazy frame. *)
Definition get_table (table_name : string) (conn : Store) : result pl.LazyFrame :=
  if decide (table_name = "account") then
    Ok (ret {| pl.schema := account_schema;
               pl.rows := (fun a => [pl.I64 (account_id a); pl.Str (account_name a);
                                     pl.Str (description a);
                                     pl.Str (datetime_to_text (account_createdAt a));
                                     pl.Str (datetime_to_text (account_updatedAt a));
                                     pl.F64 (beginningBalance a); pl.I64 (hidden a)])
                            <$> account conn |})
  else if decide (table_name = "record") then
    Ok (ret {| pl.schema := record_schema;
               pl.rows := (fun r => [pl.I64 (record_id r); createdAt r; updatedAt r;
                                     label r; amount r; date r; accountId r;
                                     categoryId r; isIncome r; isInProgress r;
                                     isTransfer r])
                            <$> record conn |})
  else if decide (table_name = "category") then
    Ok (ret {| pl.schema := category_schema;
               pl.rows := (fun c => [pl.I64 (category_id c); pl.Str (category_name c);
                                     pl.Str (datetime_to_text (category_createdAt c));
                                     pl.Str (datetime_to_text (category_updatedAt c));
                                     pl.Str (nature c); pl.Str (color c)])
                            <$> category conn |})
  else Raise (OperationalError ("no such table: " ++ table_name)).

(** [prepare_account_names]; the [account_name] column is a literal of
    [get_data], so it holds strings. *)
Definition prepare_account_names (data : pl.LazyFrame) : M (list string) :=
  d <- data ;;
  names <- pl.select [("account_name", pl.col "account_name")] d ;;
  col <- lift (pl.get_column (pl.unique names) "account_name") ;;
  ret (omap currency.py_str (pl.values col)).

Definition prepare_dataframe (data account_table : pl.LazyFrame)
    (category_id : Z) (now_expr : pl.Expr) : pl.LazyFrame :=
  d <- data ;;
  a <- account_table ;;
  a <- pl.select [("account_name", pl.col "name"); ("accountId", pl.col "id")] a ;;
  joined <- lift (pl.join_inner ["account_name"] d a) ;;
  selected <- pl.select
                [("createdAt", now_expr);
                 ("updatedAt", now_expr);
                 ("label", pl.col "transaction");
                 ("amount", pl.abs (pl.col "amount"));
                 ("date", pl.col "date");
                 ("accountId", pl.col "accountId");
                 ("categoryId", pl.cast_Int64 (pl.lit pl.Int64 (pl.I64 category_id)));
                 ("isIncome", pl.gt_zero (pl.col "amount"));
                 ("isInProgress", pl.lit pl.Boolean (pl.Bool false));
                 ("isTransfer", pl.lit pl.Boolean (pl.Bool false))] joined ;;
  ret (pl.fill_null_str "N/A" selected).

Definition process_record_table (record_table : pl.LazyFrame) : pl.LazyFrame :=
  r <- record_table ;;
  pl.select
    [("createdAt", pl.str_to_datetime_ None (pl.col "createdAt"));
     ("updatedAt", pl.str_to_datetime_ None (pl.col "updatedAt"));
     ("label", pl.col "label");
     ("amount", pl.col "amount");
     ("date", pl.str_to_datetime_ None (pl.col "date"));
     ("accountId", pl.col "accountId");
     ("categoryId", pl.cast_Int64 (pl.col "categoryId"));
     ("isIncome", pl.eq_int 1 (pl.col "isIncome"));
     ("isInProgress", pl.eq_int 1 (pl.col "isInProgress"));
     ("isTransfer", pl.eq_int 1 (pl.col "isTransfer"))] r.

(** [left.join(right, how="anti", on=...)] on lazy frames *)
Definition lazy_join_anti (on : list string) (left right : pl.LazyFrame)
  : pl.LazyFrame :=
  l <- left ;;
  r <- right ;;
  lift (pl.join_anti on l r).

(** One value as the store keeps it: datetimes as text, booleans as 0/1. *)
Definition to_sql (c : pl.cell) : pl.cell :=
  match c with
  | pl.Dt us => pl.Str (datetime_to_text us)
  | pl.Bool b => pl.I64 (if b then 1 else 0)
  | _ => c
  end.

Definition cell_at (df : pl.DataFrame) (r : list pl.cell) (name : string) : pl.cell :=
  match pl.index_of name (pl.columns df) with
  | Some i => to_sql (default pl.Null (r !! i))
  | None => pl.Null
  end.

(** [df.write_database("record", conn, if_table_exists="append")]: one
    inserted row per row of the frame, columns matched by name. *)
Definition write_database (df : pl.DataFrame) (conn : Store) : Store :=
  {| account := account conn;
     category := category conn;
     record :=
       foldl (fun tbl r =>
                tbl ++ [{| record_id := next_id (record_id <$> tbl);
                           createdAt := cell_at df r "createdAt";
                           updatedAt := cell_at df r "updatedAt";
                           label := cell_at df r "label";
                           amount := cell_at df r "amount";
                           date := cell_at df r "date";
                           accountId := cell_at df r "accountId";
                           categoryId := cell_at df r "categoryId";
                           isIncome := cell_at df r "isIncome";
                           isInProgress := cell_at df r "isInProgress";
                           isTransfer := cell_at df r "isTransfer" |}])%list
             (record conn) (pl.rows df) |}.

(** The argument of [save_to_bagel]: [Account | AccountCollection]. *)
Inductive source : Type :=
  | OfAccount (a : Account)
  | OfCollection (c : AccountCollection).

Definition get_data (account : source) : result pl.LazyFrame :=
  match account with
  | OfAccount a => Account_get_data a
  | OfCollection c => AccountCollection_get_data c
  end.

(** [save_to_bagel] up to and including [df = df.collect()]: the store
    after the reference rows were created, and the collected frame of
    new rows.  [conn] is the database [locate_database] found; [now] is
    the reading of the clock. *)
Definition new_records (account : source) (now : Z) (conn : Store)
  : M (pl.DataFrame * Store) :=
  data <- lift (get_data account) ;;
  account_names <- prepare_account_names data ;;
  let conn := create_accounts account_names now conn in
  let '(category_id, conn) := create_cateogry "imported" "blue" now conn in
  account_table <- lift (get_table "account" conn) ;;
  let now_expr := pl.lit pl.Datetime (pl.Dt now) in
  record_table <- lift (get_table "record" conn) ;;
  let df := prepare_dataframe data account_table category_id now_expr in
  counted <- record_table ;;
  let df :=
    if 0 <? pl.count_item_0_0 counted then
      let record_table := process_record_table record_table in
      lazy_join_anti ["label"; "amount"; "date"] df record_table
    else df in
  df <- df ;;
  ret (df, conn).

(** [save_to_bagel]: the frame is written in the branch taken when
    [df.is_empty()] holds; the other branch only logs. *)
Definition save_to_bagel (account : source) (now : Z) (conn : Store) : M Store :=
  reached <- new_records account now conn ;;
  let '(df, conn) := reached in
  if pl.is_empty df then ret (write_database df conn)
  else ret conn.

(** The [id] column of a table of the store. *)
Definition table_ids (table_name : string) (conn : Store) : option (list Z) :=
  if decide (table_name = "account") then Some (account_id <$> account conn)
  else if decide (table_name = "record") then Some (record_id <$> record conn)
  else if decide (table_name = "category") then Some (category_id <$> category conn)
  else None.

(** SQL's [max]: NULL over no rows. *)
Definition sql_max (ids : list Z) : option Z :=
  foldr (fun i acc => Some (match acc with Some m => Z.max i m | None => i end))
        None ids.

(** [get_max_id]: [scalar_one()] hands the NULL of an empty table back as
    [None]. *)
Definition get_max_id (table_name : string) (conn : Store) : outcome (option Z) :=
  match table_ids table_name conn with
  | Some ids => Returned (sql_max ids)
  | None => Raised (NoSuchTableError table_name)
  end.

(** What [subprocess.run(..., capture_output=True)] comes back with: the
    binary is not there, or the process ran and wrote [stdout] (its exit
    status is not looked at). *)
Inductive run_result : Type :=
  | FileNotFound
  | Completed (stdout : string).

(** [locate_database].  Strings are kept as their UTF-8 bytes, so
    [decode("utf-8")] is the identity on the valid input considered here.
    An empty [stdout] has no last line: the [IndexError] is not one of
    the two exceptions the handler catches and escapes as it is. *)
Definition locate_database (ran : run_result) : outcome string :=
  match ran with
  | FileNotFound =>
      Raised (BinaryNotFoundError
                "bagels not found. Try to check if it was installed correcly")
  | Completed stdout =>
      match last (splitlines stdout) with
      | Some line => Returned (bytes_strip line)
      | None => Raised (IndexError "list index out of range")
      end
  end.
End Reconciler.
End bagels.

(** * A concrete runtime for running the model

    Exact rationals stand for the doubles, a reader of decimal literals
    for the Float64 cast, ISO timestamps for the datetime parser, literal
    patterns for the regex engine.  The general theorems below hold for
    every runtime; this one evaluates them on examples. *)

Module runtime.

Definition digit_of (c : ascii) : option Z :=
  let n := Z.of_N (N_of_ascii c) in
  if (48 <=? n) && (n <=? 57) then Some (n - 48) else None.

(** Leading decimal digits of [s]: their value, how many, and the rest. *)
Fixpoint read_digits (s : string) (acc : Z) (n : nat) : Z * nat * string :=
  match s with
  | EmptyString => (acc, n, EmptyString)
  | String c s' =>
      match digit_of c with
      | Some d => read_digits s' (10 * acc + d) (S n)
      | None => (acc, n, s)
      end
  end.

Definition unsigned_decimal (s : string) : option Q :=
  let '(ip, n1, rest) := read_digits s 0 0%nat in
  match rest with
  | EmptyString => if decide (n1 = 0%nat) then None else Some (inject_Z ip)
  | String "."%char rest' =>
      let '(fp, n2, rest'') := read_digits rest' 0 0%nat in
      match rest'' with
      | EmptyString =>
          if decide ((n1 + n2)%nat = 0%nat) then None
          else Some (Qmake (ip * 10 ^ Z.of_nat n2 + fp) (Z.to_pos (10 ^ Z.of_nat n2)))
      | _ => None
      end
  | _ => None
  end.

Definition decimal_of_string (s : string) : option Qc :=
  match s with
  | String "-"%char s' => (fun q => Q2Qc (Qopp q)) <$> unsigned_decimal s'
  | String "+"%char s' => Q2Qc <$> unsigned_decimal s'
  | _ => Q2Qc <$> unsigned_decimal s
  end.

Definition days_from_civil (y m d : Z) : Z :=
  let y' := if m <=? 2 then y - 1 else y in
  let era := y' / 400 in
  let yoe := y' - era * 400 in
  let doy := (153 * (if 2 <? m then m - 3 else m + 9) + 2) / 5 + d - 1 in
  let doe := yoe * 365 + yoe / 4 - yoe / 100 + doy in
  era * 146097 + doe - 719468.

(** [n] digits exactly, then the given separator (if any). *)
Definition field (n : nat) (sep : option ascii) (s : string) : option (Z * string) :=
  let '(v, k, rest) := read_digits (String.substring 0 n s) 0 0%nat in
  if decide (k = n) then
    let rest := String.substring n (String.length s - n) s in
    match sep, rest with
    | None, _ => Some (v, rest)
    | Some c, String c' rest' => if Ascii.eqb c c' then Some (v, rest') else None
    | Some _, EmptyString => None
    end
  else None.

(** Reads [YYYY-MM-DD], optionally followed by [ HH:MM:SS] and then by
    [.ffffff]; the format argument is not consulted. *)
Definition iso_to_us (format : option string) (s : string) : option Z :=
  '(y, s) ← field 4 (Some "-"%char) s;
  '(m, s) ← field 2 (Some "-"%char) s;
  '(d, s) ← field 2 None s;
  let day := days_from_civil y m d * us_per_day in
  match s with
  | EmptyString => Some day
  | String " "%char s =>
      '(hh, s) ← field 2 (Some ":"%char) s;
      '(mi, s) ← field 2 (Some ":"%char) s;
      '(ss, s) ← field 2 None s;
      let secs := day + ((hh * 60 + mi) * 60 + ss) * 1000000 in
      match s with
      | EmptyString => Some secs
      | String "."%char s =>
          '(f, s) ← field 6 None s;
          if decide (s = EmptyString) then Some (secs + f) else None
      | _ => None
      end
  | _ => None
  end.

Definition pad (width : nat) (n : Z) : string :=
  let t := pretty n in
  String.concat "" (replicate (width - String.length t) "0") ++ t.

(** [YYYY-MM-DD HH:MM:SS.ffffff] *)
Definition us_to_iso (us : Z) : string :=
  let '(y, m, d) := civil_from_days (us / us_per_day) in
  let t := us mod us_per_day in
  pad 4 y ++ "-" ++ pad 2 m ++ "-" ++ pad 2 d ++ " "
    ++ pad 2 (t / 3600000000) ++ ":" ++ pad 2 (t / 60000000 mod 60) ++ ":"
    ++ pad 2 (t / 1000000 mod 60) ++ "." ++ pad 6 (t mod 1000000).

Fixpoint replace_all_literal (fuel : nat) (pattern value s : string) : string :=
  match fuel with
  | O => s
  | S fuel' =>
      match drop_prefix pattern s with
      | Some rest =>
          if decide (pattern = EmptyString) then s
          else value ++ replace_all_literal fuel' pattern value rest
      | None =>
          match s with
          | EmptyString => EmptyString
          | String c s' => String c (replace_all_literal fuel' pattern value s')
          end
      end
  end.

Definition is_space (c : ascii) : bool :=
  let n := N_of_ascii c in ((n =? 32) || ((9 <=? n) && (n <=? 13)))%N.

Fixpoint strip_start (s : string) : string :=
  match s with
  | String c s' => if is_space c then strip_start s' else s
  | EmptyString => EmptyString
  end.

Fixpoint strip_end (s : string) : string :=
  match s with
  | EmptyString => EmptyString
  | String c s' =>
      match strip_end s' with
      | EmptyString => if is_space c then EmptyString else String c EmptyString
      | t => String c t
      end
  end.

Global Instance exact_f64 : F64 := Qc.

Global Instance exact : Kernels := {|
  f64_one := Q2Qc 1;
  f64_sub := Qcminus;
  f64_mul := Qcmult;
  f64_abs := fun x => if Qle_bool 0 x then x else Qcopp x;
  f64_gt0 := fun x => negb (Qle_bool x 0);
  f64_leb := fun x y => Qle_bool x y;
  f64_of_int := fun n => Q2Qc (inject_Z n);
  str_to_f64 := decimal_of_string;
  str_to_datetime := iso_to_us;
  str_replace_all_regex := fun regex value s =>
    replace_all_literal (S (String.length s)) regex value s;
  str_strip_whitespace := fun s => strip_end (strip_start s);
  f64_to_i64 := fun x => if decide (Qden (this x) = 1%positive) then Some (Qnum (this x)) else None;
  datetime_to_text := us_to_iso;
|}.

(** A decimal literal as a rate or an amount: [dec 123456 2] is 1234.56. *)
Definition dec (digits : Z) (places : nat) : Qc :=
  Q2Qc (Qmake digits (Z.to_pos (10 ^ Z.of_nat places))).

End runtime.

(** * Concrete services, sources and stores used by the examples *)

Module scenario.
Import runtime currency models bagels.

(** A service that answers every request with the given status and a body
    quoting the given rate for every pair ([None]: the pair is absent). *)
Definition answering (status : Z) (rate : option Qc) : service :=
  fun _ _ => Some {| status_code := status; json := Some (fun _ _ => rate) |}.

(** A service that cannot be reached. *)
Definition unreachable : service := fun _ _ => None.

Definition latest_url (currency : string) : string :=
  BASE_URL_format currency "latest".
(** One row whose currency is already the target currency. *)
Definition usd_row : pl.DataFrame := {|
  pl.schema := [("date", pl.Datetime); ("cur", pl.String_)];
  pl.rows := [[pl.Dt 1704067200000000; pl.Str "USD"]];
|}.

Definition to_usd (s : strategy_t) (default : option Qc) : Currency := {|
  currency_col := "cur";
  convert_to := "USD";
  default_rate := default;
  strategy := s;
|}.

(** A source whose schema lacks the amount column named by the account. *)
Definition no_amount_column : pl.DataFrame := {|
  pl.schema := [("date", pl.String_); ("description", pl.String_)];
  pl.rows := [[pl.Str "2024-01-01"; pl.Str "Coffee"]];
|}.

Definition account_over (account_name : string) (currency : option Currency)
    (data : pl.DataFrame) : Account := {|
  name := account_name;
  date_col := "date";
  transaction_col := "description";
  amount_col := "amount";
  date_col_format := Some "%Y-%m-%d";
  currency := currency;
  fees_col := None;
  transaction_col_cleaning_regex := None;
  data := data;
|}.

(** A CSV-like source: every column textual. *)
Definition textual (lines : list (string * string * string)) : pl.DataFrame := {|
  pl.schema := [("date", pl.String_); ("amount", pl.String_);
                ("description", pl.String_)];
  pl.rows := (fun l : string * string * string =>
                [pl.Str l.1.1; pl.Str l.1.2; pl.Str l.2]) <$> lines;
|}.

Definition coffee_and_rent : pl.DataFrame :=
  textual [("2024-01-01", "5.00", "Coffee"); ("2024-01-02", "1200.00", "Rent")].

Definition empty_store : Store := {| account := []; category := []; record := [] |}.

(** The record [(label="Coffee", amount=5.00, date=2024-01-01)] as the
    store holds it. *)
Definition coffee_record : record_row := {|
  record_id := 1;
  createdAt := pl.Str "2023-12-31 08:00:00.000000";
  updatedAt := pl.Str "2023-12-31 08:00:00.000000";
  label := pl.Str "Coffee";
  amount := pl.F64 (dec 500 2);
  date := pl.Str "2024-01-01 00:00:00.000000";
  accountId := pl.I64 1;
  categoryId := pl.I64 1;
  isIncome := pl.I64 1;
  isInProgress := pl.I64 0;
  isTransfer := pl.I64 0;
|}.

Definition imported_category : category_row := {|
  category_id := 1;
  category_name := "imported";
  category_createdAt := 1703980800000000;
  category_updatedAt := 1703980800000000;
  nature := "NEED";
  color := "blue";
|}.

Definition main_account : account_row := {|
  account_id := 1;
  account_name := "Main";
  description := "Imported with finwrap";
  account_createdAt := 1703980800000000;
  account_updatedAt := 1703980800000000;
  beginningBalance := dec 0 0;
  hidden := 0;
|}.

Definition store_with_coffee : Store := {|
  account := [main_account];
  category := [imported_category];
  record := [coffee_record];
|}.

(** The clock reading used by the examples: 2024-01-03 00:00:00. *)
Definition now : Z := 1704240000000000.

(** The rows a run leaves: of a collected frame, and of the record
    table of the store. *)
Definition rows_of (run : result pl.DataFrame * world) : result (list (list pl.cell)) :=
  match fst run with
  | Ok df => Ok (pl.rows df)
  | Raise e => Raise e
  end.

Definition records_of (run : result Store * world) : result (list record_row) :=
  match fst run with
  | Ok conn => Ok (record conn)
  | Raise e => Raise e
  end.

Definition new_rows_of (run : result (pl.DataFrame * Store) * world)
  : result (list (list pl.cell)) :=
  match fst run with
  | Ok (df, _) => Ok (pl.rows df)
  | Raise e => Raise e
  end.

(** Two accounts of the same name reporting the same single row. *)
Definition twice_the_same : AccountCollection := {|
  accounts := [account_over "Main" None (textual [("2024-01-01", "5.00", "Coffee")]);
               account_over "Main" None (textual [("2024-01-01", "5.00", "Coffee")])];
|}.
(** The account "Main" over Coffee and Rent, as exported in the examples. *)
Definition main : Account := account_over "Main" None coffee_and_rent.

Definition incoming : source := OfAccount main.

(** The same account, naming a fees column its source does not have. *)
Definition main_with_missing_fees : Account := {|
  name := "Main";
  date_col := "date";
  transaction_col := "description";
  amount_col := "amount";
  date_col_format := Some "%Y-%m-%d";
  currency := None;
  fees_col := Some "fees";
  transaction_col_cleaning_regex := None;
  data := coffee_and_rent;
|}.

Definition no_frame : pl.DataFrame := {| pl.schema := []; pl.rows := [] |}.

(** The frame an account collects to when the service is out of reach. *)
Definition collected_offline (a : Account) : pl.DataFrame :=
  match fst (collected (Account_get_data a) unreachable world0) with
  | Ok df => df
  | Raise _ => no_frame
  end.

(** What [new_records] and [save_to_bagel] leave for [incoming]. *)
Definition reconciled (conn : Store) : pl.DataFrame * Store :=
  match fst (new_records incoming now conn unreachable world0) with
  | Ok reached => reached
  | Raise _ => (no_frame, conn)
  end.

Definition exported (conn : Store) : Store :=
  match fst (save_to_bagel incoming now conn unreachable world0) with
  | Ok conn' => conn'
  | Raise _ => conn
  end.

(** An answer the status gate rejects. *)
Definition not_found : response :=
  {| status_code := 404; json := Some (fun _ _ => None) |}.

(** The suffix of the last component of a path, as [pathlib] computes it
    up to Python 3.13: from the last dot of the name, unless that dot is
    the first or the last character (paths without [.] and [..]
    components). *)
Fixpoint last_component (cur s : string) : string :=
  match s with
  | EmptyString => cur
  | String c rest =>
      if Ascii.eqb c "/"%char then
        last_component (if decide (rest = EmptyString) then cur else EmptyString) rest
      else last_component (cur ++ String c EmptyString) rest
  end.

Fixpoint from_last_dot (s : string) : option string :=
  match s with
  | EmptyString => None
  | String c rest =>
      match from_last_dot rest with
      | Some t => Some t
      | None => if Ascii.eqb c "."%char then Some s else None
      end
  end.

Definition Path_suffix (p : string) : string :=
  match last_component EmptyString p with
  | EmptyString => EmptyString
  | String c rest =>
      match from_last_dot rest with
      | Some (String _ (String _ _) as sfx) => sfx
      | _ => EmptyString
      end
  end.

(** Readers that only say what they were asked to read. *)
Definition reading (ft : FileType) (paths : list string) : FileType * list string :=
  (ft, paths).
(** Two rows in the same foreign currency. *)
Definition two_eur_rows : pl.DataFrame := {|
  pl.schema := [("date", pl.Datetime); ("cur", pl.String_)];
  pl.rows := [[pl.Dt 1704067200000000; pl.Str "EUR"];
              [pl.Dt 1704153600000000; pl.Str "EUR"]];
|}.

(** A source with numeric amounts and a fees column. *)
Definition with_fees : pl.DataFrame := {|
  pl.schema := [("date", pl.String_); ("amount", pl.Float64);
                ("description", pl.String_); ("fees", pl.Float64)];
  pl.rows := [[pl.Str "2024-01-01"; pl.F64 (dec 500 2); pl.Str "Coffee";
               pl.F64 (dec 25 2)]];
|}.

Definition main_with_fees : Account := {|
  name := "Main";
  date_col := "date";
  transaction_col := "description";
  amount_col := "amount";
  date_col_format := Some "%Y-%m-%d";
  currency := None;
  fees_col := Some "fees";
  transaction_col_cleaning_regex := None;
  data := with_fees;
|}.
(** The frame [prepare_dataframe] makes of the account "Main" against the
    account table of the store that holds the coffee record. *)
Definition prepared : pl.DataFrame :=
  match fst (prepare_dataframe (collected (Account_get_data main))
               (collected (get_table "account" store_with_coffee))
               1 (pl.lit pl.Datetime (pl.Dt now)) unreachable world0) with
  | Ok df => df
  | Raise _ => no_frame
  end.
End scenario.

(** * Facts about the rate resolver (currency.py) *)

Section ResolverFacts.
Context `{Kernels}.
Import currency.

(** The undecorated body issues exactly one request and leaves the memo
    table alone, whatever its outcome. *)
Lemma wrapped_world frm to d dr sv w r w' :
  get_currency_rate__wrapped frm to d dr sv w = (r, w') →
  fetched w' = (fetched w ++ [BASE_URL_format (lower frm) (date_str d)])%list
  ∧ memo w' = memo w.
Proof.
  unfold get_currency_rate__wrapped, bind, requests_get, response_json, ret, raise.
  intros Hrun.
  destruct (sv (length (fetched w)) _) as [resp|]; simpl in Hrun.
  - destruct (status_code resp mod 200 =? 0); simpl in Hrun.
    + destruct (json resp) as [payload|]; simpl in Hrun.
      * destruct (payload (lower frm) (lower to)), dr; simpl in Hrun;
          inversion Hrun; subst; auto.
      * inversion Hrun; subst; auto.
    + inversion Hrun; subst; auto.
  - inversion Hrun; subst; auto.
Qed.

(** The status gate of the body: the JSON body is read exactly when the
    status code is a multiple of 200. *)
Lemma wrapped_status_gate frm to d dr sv w resp :
  sv (length (fetched w)) (BASE_URL_format (lower frm) (date_str d)) = Some resp →
  status_code resp mod 200 ≠ 0 →
  fst (get_currency_rate__wrapped frm to d dr sv w) = Ok dr.
Proof.
  intros Hresp Hstatus.
  unfold get_currency_rate__wrapped, bind, requests_get.
  rewrite Hresp. simpl.
  destruct (Z.eqb_spec (status_code resp mod 200) 0) as [E|_]; [contradiction|].
  reflexivity.
Qed.

Lemma wrapped_reads_rate frm to d dr sv w resp payload rate :
  sv (length (fetched w)) (BASE_URL_format (lower frm) (date_str d)) = Some resp →
  status_code resp mod 200 = 0 →
  json resp = Some payload →
  payload (lower frm) (lower to) = Some rate →
  fst (get_currency_rate__wrapped frm to d dr sv w) = Ok (Some rate).
Proof.
  intros Hresp Hstatus Hjson Hrate.
  unfold get_currency_rate__wrapped, bind, requests_get, response_json.
  rewrite Hresp. simpl. rewrite Hstatus. simpl.
  rewrite Hjson. simpl. rewrite Hrate. reflexivity.
Qed.

(** X26. A direct call on a readable answer that lacks the pair: without a
    default it raises, naming both codes in upper case; with a default
    it returns the default. *)
Lemma wrapped_pair_absent frm to d dr sv w resp payload :
  sv (length (fetched w)) (BASE_URL_format (lower frm) (date_str d)) = Some resp →
  status_code resp mod 200 = 0 →
  json resp = Some payload →
  payload (lower frm) (lower to) = None →
  fst (get_currency_rate__wrapped frm to d dr sv w) =
    match dr with
    | None => Raise (ValueError
                       ("Unable to fetch exchange rate for " ++ upper (lower frm)
                          ++ "/" ++ upper (lower to)
                          ++ " and no default_rate was specified."))
    | Some x => Ok (Some x)
    end.
Proof.
  intros Hresp Hstatus Hjson Hrate.
  unfold get_currency_rate__wrapped, bind, requests_get, response_json.
  rewrite Hresp. simpl. rewrite Hstatus. simpl.
  rewrite Hjson. simpl. rewrite Hrate. destruct dr; reflexivity.
Qed.

Lemma memo_get_put k v w : memo_get k (memo (memo_put k v w)) = Some v.
Proof. simpl. destruct (decide (k = k)); [reflexivity | contradiction]. Qed.

(** A call to the decorated resolver never forgets a memoised value. *)
Lemma resolver_keeps_memo frm to d dr sv w r w' k v :
  get_currency_rate frm to d dr sv w = (r, w') →
  memo_get k (memo w) = Some v →
  memo_get k (memo w') = Some v.
Proof.
  unfold get_currency_rate. intros Hrun Hk.
  destruct (memo_get (frm, to, d, dr) (memo w)) as [v0|] eqn:Hhit.
  - inversion Hrun; subst; assumption.
  - destruct (get_currency_rate__wrapped frm to d dr sv w) as [[v1|e] w1] eqn:Hbody;
      apply wrapped_world in Hbody as [_ Hmemo]; inversion Hrun; subst; simpl.
    + destruct (decide (k = (frm, to, d, dr))) as [->|_]; [congruence|].
      rewrite Hmemo. assumption.
    + rewrite Hmemo. assumption.
Qed.

(** A call issues at most one request. *)
Lemma resolver_fetches_at_most_once frm to d dr sv w r w' :
  get_currency_rate frm to d dr sv w = (r, w') →
  (length (fetched w') ≤ S (length (fetched w)))%nat.
Proof.
  unfold get_currency_rate. intros Hrun.
  destruct (memo_get (frm, to, d, dr) (memo w)).
  - inversion Hrun; subst. lia.
  - destruct (get_currency_rate__wrapped frm to d dr sv w) as [[v1|e] w1] eqn:Hbody;
      apply wrapped_world in Hbody as [Hf _]; inversion Hrun; subst; simpl;
      rewrite Hf, length_app; simpl; lia.
Qed.

(** After a call returned, the value is in the memo table. *)
Lemma resolver_memoises frm to d dr sv w v w' :
  get_currency_rate frm to d dr sv w = (Ok v, w') →
  memo_get (frm, to, d, dr) (memo w') = Some v.
Proof.
  unfold get_currency_rate. intros Hrun.
  destruct (memo_get (frm, to, d, dr) (memo w)) as [v0|] eqn:Hhit.
  - inversion Hrun; subst; assumption.
  - destruct (get_currency_rate__wrapped frm to d dr sv w) as [[v1|e] w1];
      inversion Hrun; subst. apply memo_get_put.
Qed.

(** A memoised key is answered from the table: same value, same world. *)
Lemma resolver_hit frm to d dr sv w v :
  memo_get (frm, to, d, dr) (memo w) = Some v →
  get_currency_rate frm to d dr sv w = (Ok v, w).
Proof. unfold get_currency_rate. intros ->. reflexivity. Qed.

Lemma run_calls_keeps_memo calls sv w k v :
  memo_get k (memo w) = Some v →
  memo_get k (memo (run_calls calls sv w)) = Some v.
Proof.
  revert w. induction calls as [|[[[frm to] d] dr] calls IH]; intros w Hk; [assumption|].
  simpl. apply IH.
  destruct (get_currency_rate frm to d dr sv w) as [r w'] eqn:Hrun.
  simpl. eapply resolver_keeps_memo; eassumption.
Qed.
End ResolverFacts.

Section ResolverClaims.
Context `{Kernels}.
Import currency.

(** C9, as amended. Two calls to the resolver with the same argument
    tuple, with any number of other resolver calls in between: if the
    first call returns a value, the second returns the identical value
    and issues no request (the world it is run in is the world it
    leaves), and the first issued at most one.  In particular two
    consecutive such calls are idempotent in the sense of
    [idempotent_at]. *)
Theorem resolver_idempotent_once_returned
    frm to d dr (sv : service) (w w1 : world) (v : option f64)
    (between : list memo_key) :
  get_currency_rate frm to d dr sv w = (Ok v, w1) →
  (length (fetched w1) ≤ S (length (fetched w)))%nat
  ∧ get_currency_rate frm to d dr sv (run_calls between sv w1)
    = (Ok v, run_calls between sv w1)
  ∧ idempotent_at sv w (frm, to, d, dr).
Proof.
  intros Hfirst.
  pose proof (resolver_fetches_at_most_once _ _ _ _ _ _ _ _ Hfirst) as Hlen.
  pose proof (resolver_memoises _ _ _ _ _ _ _ _ Hfirst) as Hmemo.
  split; [assumption|]. split.
  - apply resolver_hit. apply run_calls_keeps_memo. assumption.
  - exists v, w1, w1. split; [assumption|]. split; [|assumption].
    apply resolver_hit. assumption.
Qed.
End ResolverClaims.
Section ResolverExamples.
Import runtime currency scenario.

(** C9, as stated, fails where the call raises: with a service that
    answers 200 but quotes no rate for the pair, and no default rate,
    the two calls do not return a value; each of them raises, and each
    of them issues its own request. *)
Lemma resolver_not_idempotent_when_raising :
  ¬ idempotent_at (answering 200 None) world0 ("EUR", "USD", Latest, None).
Proof.
  intros (v & w1 & w2 & Hfirst & _). vm_compute in Hfirst. discriminate Hfirst.
Qed.

(** The same input, run: two raises, two requests. *)
Example resolver_raising_twice_fetches_twice :
  let sv := answering 200 None in
  let first := get_currency_rate "EUR" "USD" Latest None sv world0 in
  let second := get_currency_rate "EUR" "USD" Latest None sv (snd first) in
  fst first = Raise (ValueError "Unable to fetch exchange rate for EUR/USD and no default_rate was specified.")
  ∧ fst second = fst first
  ∧ fetched (snd second) = [latest_url "eur"; latest_url "eur"].
Proof. vm_compute. auto. Qed.

Lemma resolver_idempotent_once_returned_witness :
  let sv := answering 200 (Some (dec 11 1)) in
  let w1 := snd (get_currency_rate "EUR" "USD" Latest None sv world0) in
  let between := [("GBP", "USD", Latest, None); ("EUR", "USD", PyDate 19723, None)] in
  (length (fetched w1) ≤ S (length (fetched world0)))%nat
  ∧ get_currency_rate "EUR" "USD" Latest None sv (run_calls between sv w1)
    = (Ok (Some (dec 11 1)), run_calls between sv w1)
  ∧ idempotent_at sv world0 ("EUR", "USD", Latest, None).
Proof.
  intros sv w1 between.
  apply (resolver_idempotent_once_returned "EUR" "USD" Latest None sv world0 w1
           (Some (dec 11 1)) between).
  vm_compute. reflexivity.
Defined.

(** C3. The gate is [status_code % 200 == 0], not membership in the 2xx
    class.  Answer 400 (outside 2xx) with a body quoting 1.1: the body
    is read and 1.1 returned, although a default of 9 was supplied.
    Answer 201 (inside 2xx) with the same body: the body is not read and
    the default 9 is returned. *)
Theorem status_400_read_as_rate_and_201_not :
  fst (get_currency_rate "EUR" "USD" Latest (Some (dec 9 0))
         (answering 400 (Some (dec 11 1))) world0) = Ok (Some (dec 11 1))
  ∧ fst (get_currency_rate "EUR" "USD" Latest (Some (dec 9 0))
           (answering 201 (Some (dec 11 1))) world0) = Ok (Some (dec 9 0)).
Proof. vm_compute. auto. Qed.

(** C4. The batched pass of the dynamic strategy drops the default rate:
    with a service that quotes no rate for EUR/USD and a default of 1.1,
    the direct call returns the default, while the batched call for the
    same pair, date and default raises "rate unavailable". *)
Theorem batches_ignore_default_rate :
  let sv := answering 200 None in
  let day := PyDatetime 1704067200000000 in
  fst (get_currency_rate "EUR" "USD" day (Some (dec 11 1)) sv world0)
    = Ok (Some (dec 11 1))
  ∧ fst (get_currency_rate_batches [Some "EUR"] "USD" [day] (Some (dec 11 1)) sv world0)
    = Raise (ValueError "Unable to fetch exchange rate for EUR/USD and no default_rate was specified.").
Proof. vm_compute. auto. Qed.

(** The other half of the default-rate policy that the direct call does
    not follow: on an answer the gate rejects and without a default, the
    call returns [None] instead of raising. *)
Example rejected_answer_without_default_returns_none :
  fst (get_currency_rate "EUR" "USD" Latest None (answering 404 None) world0) = Ok None.
Proof. vm_compute. reflexivity. Qed.
End ResolverExamples.

(** * Facts about the rate expression (currency.py, [Currency.rate]) *)

Section RateFacts.
Context `{Kernels}.
Import currency.

Lemma result_mapM_total {A B} (g : A → B) (f : A → result B) (l : list A) :
  (∀ a, f a = Ok (g a)) → pl.result_mapM f l = Ok (g <$> l).
Proof.
  intros Hf. induction l as [|a l IH]; [reflexivity|].
  simpl. rewrite Hf, IH. reflexivity.
Qed.

Lemma mapM_length {A B} (f : A → M B) (l : list A) sv w bs w' :
  mapM f l sv w = (Ok bs, w') → length bs = length l.
Proof.
  revert w bs. induction l as [|a l IH]; intros w bs Hrun.
  - inversion Hrun. reflexivity.
  - simpl in Hrun. unfold bind in Hrun.
    destruct (f a sv w) as [[b|e] w1]; [|discriminate].
    destruct (mapM f l sv w1) as [[bs'|e] w2] eqn:Hrest; [|discriminate].
    inversion Hrun; subst. simpl. f_equal. eapply IH. eassumption.
Qed.

(** X21. What the "latest" expression delivers of C8: when its
    evaluation returns, a row whose currency equals the target holds the
    literal 1.0. *)
Lemma latest_rate_of_target_currency_is_one
    (self : Currency) (date_expr : pl.Expr) (df : pl.DataFrame) sv w s w' cur i :
  strategy self = latest →
  Currency_rate self date_expr df sv w = (Ok s, w') →
  pl.get_column df (currency_col self) = Ok cur →
  pl.values cur !! i = Some (pl.Str (convert_to self)) →
  pl.values s !! i = Some (pl.F64 f64_one).
Proof.
  intros Hlatest Hrun Hcur Hcell.
  unfold Currency_rate in Hrun. rewrite Hlatest in Hrun.
  unfold pl.when_then_otherwise, pl.ne_str, pl.str_op, pl.map_elements, pl.col, pl.lit,
    bind, lift, ret, raise in Hrun.
  rewrite Hcur in Hrun.
  destruct (pl.dtype_of cur); try discriminate.
  unfold pl.map_cells in Hrun.
  rewrite (result_mapM_total
             (fun c => match c with
                       | pl.Str x => pl.Bool (negb (String.eqb x (convert_to self)))
                       | _ => pl.Null
                       end)) in Hrun
    by (intros [| | | | |]; reflexivity).
  destruct (mapM _ (pl.values cur) sv w) as [[vs|e] w1] eqn:Hthen; [|discriminate].
  inversion Hrun; subst. simpl.
  apply mapM_length in Hthen.
  assert (Hheight : length (pl.values cur) = length (pl.rows df)).
  { unfold pl.get_column in Hcur.
    destruct (pl.index_of _ _); inversion Hcur; subst. simpl.
    apply length_fmap. }
  assert (Hi : (i < length (pl.values cur))%nat) by (eapply lookup_lt_Some; eassumption).
  destruct (lookup_lt_is_Some_2 vs i) as [v Hv]; [lia|].
  rewrite lookup_zip_with, list_lookup_fmap, Hcell. simpl.
  rewrite String.eqb_refl. simpl.
  rewrite lookup_zip_with, Hv. simpl.
  rewrite lookup_replicate_2 by lia. reflexivity.
Qed.
End RateFacts.

Section RateExamples.
Import runtime currency scenario.

(** C8. With the strategy "latest", a row whose currency already equals
    the target is still handed to the resolver: the [then] branch of the
    conditional is evaluated on every row before the rows are picked.
    On a frame holding one USD row, converting to USD from an empty memo
    table, one request for the USD rates is issued; the row receives 1.0
    only because that call returned.  When the service cannot be
    reached the expression raises and the row receives no rate. *)
Theorem latest_same_currency_row_is_fetched :
  let rate := Currency_rate (to_usd latest None) (pl.col "date") usd_row in
  rate (answering 200 (Some (dec 12 1))) world0
    = (Ok {| pl.dtype_of := pl.Float64; pl.values := [pl.F64 (dec 1 0)] |},
       {| fetched := [latest_url "usd"];
          memo := [(("USD", "USD", Latest, None), Some (dec 12 1))] |})
  ∧ fst (rate unreachable world0) = Raise (ConnectionError (latest_url "usd")).
Proof. vm_compute. auto. Qed.

(** The same holds for the strategy "dynamic": the batched pass sees the
    row too. *)
Example dynamic_same_currency_row_is_fetched :
  fetched (snd (Currency_rate (to_usd dynamic None) (pl.col "date") usd_row
                  (answering 200 (Some (dec 12 1))) world0))
    = [BASE_URL_format "usd" "2024-01-01"].
Proof. vm_compute. reflexivity. Qed.

(** C4 seen from the expression: the dynamic strategy with a default
    rate of 1.1 raises on a pair the service does not quote, the latest
    strategy returns the default. *)
Example dynamic_strategy_raises_despite_default :
  let eur_row := {| pl.schema := pl.schema usd_row;
                    pl.rows := [[pl.Dt 1704067200000000; pl.Str "EUR"]] |} in
  fst (Currency_rate (to_usd dynamic (Some (dec 11 1))) (pl.col "date") eur_row
         (answering 200 None) world0)
    = Raise (ValueError "Unable to fetch exchange rate for EUR/USD and no default_rate was specified.")
  ∧ fst (Currency_rate (to_usd latest (Some (dec 11 1))) (pl.col "date") eur_row
           (answering 200 None) world0)
    = Ok {| pl.dtype_of := pl.Float64; pl.values := [pl.F64 (dec 11 1)] |}.
Proof. vm_compute. auto. Qed.
End RateExamples.

(** * Facts about accounts (models.py) *)

Section AccountFacts.
Context `{Kernels}.
Import models.

Lemma schema_getitem_absent (sch : list (string * pl.dtype)) name :
  name ∉ sch.*1 → schema_getitem sch name = Raise (KeyError name).
Proof.
  induction sch as [|[n d] sch IH]; simpl; intros Hnot; [reflexivity|].
  destruct (decide (name = n)) as [->|Hne].
  - exfalso. apply Hnot. left.
  - apply IH. intros Hin. apply Hnot. right. assumption.
Qed.

Lemma schema_getitem_present (sch : list (string * pl.dtype)) name :
  name ∈ sch.*1 → ∃ d, schema_getitem sch name = Ok d.
Proof.
  induction sch as [|[n d] sch IH]; simpl; intros Hin.
  - inversion Hin.
  - destruct (decide (name = n)) as [->|Hne]; [eauto|].
    apply IH. inversion Hin; subst; [contradiction | assumption].
Qed.

Lemma Account_date_present (self : Account) :
  date_col self ∈ pl.columns (data self) → ∃ e, Account_date self = Ok e.
Proof.
  intros Hin. unfold Account_date, data_schema.
  destruct (schema_getitem_present _ _ Hin) as [d ->]. simpl.
  destruct d; eauto.
Qed.

(** A missing date column stops [get_data] at the first assertion, with a
    message that names the column and lists the columns of the source. *)
Lemma get_data_missing_date (self : Account) :
  date_col self ∉ pl.columns (data self) →
  Account_get_data self
  = Raise (AssertionError
             (date_col self ++ " is not in data columns: "
                ++ py_repr_list (pl.columns (data self)) ++ ". col=" ++ date_col self
                ++ "; cols: " ++ py_repr_list (pl.columns (data self)))).
Proof.
  intros Hnot. unfold Account_get_data. simpl.
  destruct (decide (date_col self ∈ pl.columns (data self))); [contradiction|].
  reflexivity.
Qed.

(** So does a missing transaction column, at the second assertion. *)
Lemma get_data_missing_transaction (self : Account) :
  date_col self ∈ pl.columns (data self) →
  transaction_col self ∉ pl.columns (data self) →
  Account_get_data self
  = Raise (AssertionError
             (transaction_col self ++ " is not in data columns: "
                ++ py_repr_list (pl.columns (data self)) ++ ". col="
                ++ transaction_col self
                ++ "; cols: " ++ py_repr_list (pl.columns (data self)))).
Proof.
  intros Hdate Hnot. unfold Account_get_data. simpl.
  destruct (decide (date_col self ∈ pl.columns (data self))); [|contradiction].
  destruct (decide (transaction_col self ∈ pl.columns (data self))); [contradiction|].
  reflexivity.
Qed.

(** The amount column is not among the asserted ones (the transaction
    column is asserted twice): when it alone is missing, all assertions
    pass and the [amount] property fails on its schema lookup, with a
    [KeyError] that carries the column name and nothing else. *)
Lemma get_data_missing_amount (self : Account) :
  date_col self ∈ pl.columns (data self) →
  transaction_col self ∈ pl.columns (data self) →
  amount_col self ∉ pl.columns (data self) →
  Account_get_data self = Raise (KeyError (amount_col self)).
Proof.
  intros Hdate Htrans Hnot. unfold Account_get_data. simpl.
  destruct (decide (date_col self ∈ pl.columns (data self))); [|contradiction].
  destruct (decide (transaction_col self ∈ pl.columns (data self))); [|contradiction].
  simpl. destruct (Account_date_present self Hdate) as [date_expr ->]. simpl.
  unfold Account_amount, data_schema.
  rewrite (schema_getitem_absent _ _ Hnot). reflexivity.
Qed.
End AccountFacts.

(** [str.replace(",", "")] removes the first comma and nothing after it:
    whatever follows that comma, further commas included, is kept. *)
Lemma str_replace_first_comma (a b : string) :
  (∀ a1 a2, a ≠ a1 ++ "," ++ a2) →
  str_replace_n1 "," "" (a ++ "," ++ b) = a ++ b.
Proof.
  induction a as [|c a IH]; intros Hfree.
  - reflexivity.
  - assert (Hc : Ascii.eqb ","%char c = false).
    { destruct (Ascii.eqb ","%char c) eqn:E; [|reflexivity].
      apply Ascii.eqb_eq in E. subst c.
      exfalso. apply (Hfree "" a). reflexivity. }
    change (String c a ++ "," ++ b) with (String c (a ++ "," ++ b)).
    cbn [str_replace_n1 drop_prefix]. rewrite Hc.
    change (String c a ++ b) with (String c (a ++ b)). f_equal.
    apply IH. intros a1 a2 Heq. apply (Hfree (String c a1) a2).
    rewrite Heq. reflexivity.
Qed.

(** * Facts about collections of accounts (models.py) *)

Section CollectionFacts.
Context `{Kernels}.
Import models.

Lemma length_concat_rows {A} (ls : list (list A)) :
  length (concat ls) = sum_list (length <$> ls).
Proof.
  induction ls as [|l ls IH]; [reflexivity|].
  simpl. rewrite length_app, IH. reflexivity.
Qed.

(** Collecting the tail of a concatenation collects the frames one after
    the other and appends their rows as they are. *)
Lemma concat_rows_collects sch (frames : list pl.LazyFrame) sv w rest w' :
  pl.concat_rows sch frames sv w = (Ok rest, w') →
  ∃ dfs, mapM (fun f : pl.LazyFrame => f) frames sv w = (Ok dfs, w')
         ∧ rest = concat (pl.rows <$> dfs)
         ∧ Forall (fun d => pl.schema d = sch) dfs.
Proof.
  revert w rest. induction frames as [|f frames IH]; intros w rest Hrun.
  - inversion Hrun; subst. exists []. repeat split. constructor.
  - simpl in Hrun. unfold bind in Hrun.
    destruct (f sv w) as [[df|e] w1] eqn:Hf; [|discriminate].
    destruct (decide (pl.schema df = sch)) as [Hsch|_]; [|discriminate].
    destruct (pl.concat_rows sch frames sv w1) as [[rest'|e] w2] eqn:Hrest;
      [|discriminate].
    inversion Hrun; subst.
    destruct (IH _ _ Hrest) as (dfs & Hall & -> & Hschemas).
    exists (df :: dfs). split; [|split].
    + simpl. unfold bind. rewrite Hf, Hall. reflexivity.
    + reflexivity.
    + constructor; auto.
Qed.

Lemma mapM_collected (accounts : list Account) (frames : list pl.LazyFrame) :
  pl.result_mapM Account_get_data accounts = Ok frames →
  mapM (fun a => collected (Account_get_data a)) accounts
  = mapM (fun f : pl.LazyFrame => f) frames.
Proof.
  revert frames. induction accounts as [|a accounts IH]; intros frames Hall.
  - inversion Hall. reflexivity.
  - simpl in Hall.
    destruct (Account_get_data a) as [f|e] eqn:Hf; [|discriminate].
    destruct (pl.result_mapM Account_get_data accounts) as [fs|e]; [|discriminate].
    inversion Hall; subst. simpl. rewrite Hf, (IH fs eq_refl). reflexivity.
Qed.

(** C10. Whenever the frame of a collection collects, it holds the rows of
    its members' frames, collected one after the other in list order,
    appended as they are; so its row count is the sum of the members' row
    counts, and a row reported by two accounts is there twice. *)
Theorem collection_rows_are_the_members_rows
    (c : AccountCollection) (sv : service) (w w' : world) (df : pl.DataFrame) :
  collected (AccountCollection_get_data c) sv w = (Ok df, w') →
  ∃ dfs : list pl.DataFrame,
    mapM (fun a => collected (Account_get_data a)) (accounts c) sv w = (Ok dfs, w')
    ∧ pl.rows df = concat (pl.rows <$> dfs)
    ∧ pl.height df = sum_list (pl.height <$> dfs).
Proof.
  unfold AccountCollection_get_data. intros Hrun.
  destruct (pl.result_mapM Account_get_data (accounts c)) as [frames|e] eqn:Hframes;
    [|discriminate].
  rewrite (mapM_collected _ _ Hframes).
  destruct frames as [|f frames]; [discriminate|].
  simpl in Hrun. unfold bind in Hrun.
  destruct (f sv w) as [[d0|e] w1] eqn:Hf; [|discriminate].
  destruct (pl.concat_rows (pl.schema d0) frames sv w1) as [[rest|e] w2] eqn:Hrest;
    [|discriminate].
  inversion Hrun; subst.
  destruct (concat_rows_collects _ _ _ _ _ _ Hrest) as (dfs & Hall & -> & _).
  exists (d0 :: dfs). split; [|split].
  - simpl. unfold bind. rewrite Hf, Hall. reflexivity.
  - reflexivity.
  - unfold pl.height. simpl. rewrite length_app, length_concat_rows.
    rewrite <- list_fmap_compose. reflexivity.
Qed.

(** X22. The frame of a collection does collect when there is at least one
    account, every account's frame collects, and the frames agree on
    their schema. *)
Lemma collection_collects
    (c : AccountCollection) (sv : service) (w w' : world)
    (d0 : pl.DataFrame) (dfs : list pl.DataFrame) :
  mapM (fun a => collected (Account_get_data a)) (accounts c) sv w = (Ok (d0 :: dfs), w') →
  Forall (fun d => pl.schema d = pl.schema d0) dfs →
  collected (AccountCollection_get_data c) sv w
  = (Ok {| pl.schema := pl.schema d0; pl.rows := concat (pl.rows <$> d0 :: dfs) |}, w').
Proof.
  unfold AccountCollection_get_data.
  destruct c as [accts]. simpl.
  destruct accts as [|a accts]; [discriminate|].
  simpl. unfold bind at 1.
  destruct (Account_get_data a) as [f|e] eqn:Hf; simpl; [|discriminate].
  destruct (f sv w) as [[d|e] w1] eqn:Hfrun; [|discriminate].
  intros Hrest Hschemas.
  assert (Hgen : ∀ accts w1 dfs w',
             mapM (fun a => collected (Account_get_data a)) accts sv w1 = (Ok dfs, w') →
             Forall (fun d => pl.schema d = pl.schema d0) dfs →
             ∃ frames, pl.result_mapM Account_get_data accts = Ok frames
                       ∧ pl.concat_rows (pl.schema d0) frames sv w1
                         = (Ok (concat (pl.rows <$> dfs)), w')).
  { clear. induction accts as [|a accts IH]; intros w1 dfs w' Hrun Hsch.
    - inversion Hrun; subst. exists []. split; reflexivity.
    - simpl in Hrun. unfold bind in Hrun.
      destruct (Account_get_data a) as [f|e] eqn:Hf; simpl in Hrun; [|discriminate].
      destruct (f sv w1) as [[d|e] w2] eqn:Hfrun; [|discriminate].
      destruct (mapM (fun a => collected (Account_get_data a)) accts sv w2)
        as [[ds|e] w3] eqn:Hrest; [|discriminate].
      inversion Hrun; subst. inversion Hsch; subst.
      destruct (IH _ _ _ Hrest ltac:(assumption)) as (frames & Hframes & Hrows).
      exists (f :: frames). split.
      + simpl. rewrite Hf, Hframes. reflexivity.
      + simpl. unfold bind. rewrite Hfrun.
        destruct (decide (pl.schema d = pl.schema d0)); [|contradiction].
        rewrite Hrows. reflexivity. }
  unfold bind in Hrest.
  destruct (mapM (fun a => collected (Account_get_data a)) accts sv w1)
    as [[ds|e] w2] eqn:Hmap; [|discriminate].
  inversion Hrest; subst.
  destruct (Hgen _ _ _ _ Hmap Hschemas) as (frames & -> & Hrows).
  simpl. unfold bind. rewrite Hfrun, Hrows. reflexivity.
Qed.
End CollectionFacts.

Section AccountExamples.
Import runtime currency models scenario.

(** C5. An account whose source has the date and transaction columns but
    not the amount column: [get_data] does raise when it is called, before
    anything is collected, but what it raises is the bare [KeyError] of
    the schema lookup in the [amount] property.  The assertion that would
    name the column together with the available columns never looks at
    the amount column. *)
Theorem get_data_missing_amount_is_a_bare_KeyError :
  Account_get_data (account_over "Main" None no_amount_column)
  = Raise (KeyError "amount").
Proof. reflexivity. Qed.

(** The assertion as it fires for the date column of the same source. *)
Example get_data_missing_date_names_the_columns :
  Account_get_data {| name := "Main"; date_col := "when";
                      transaction_col := "description"; amount_col := "amount";
                      date_col_format := None; currency := None; fees_col := None;
                      transaction_col_cleaning_regex := None;
                      data := no_amount_column |}
  = Raise (AssertionError
             "when is not in data columns: ['date', 'description']. col=when; cols: ['date', 'description']").
Proof. reflexivity. Qed.

(** C6. Only the first thousands separator is stripped.  The amount
    "1,234.56" reaches the cast as "1234.56" and coerces to 1234.56; the
    amount "1,234,567.89" reaches the cast as "1234,567.89", which is not
    a number, and collecting the frame fails. *)
Theorem amount_with_two_separators_fails :
  str_replace_n1 "," "" "1,234,567.89" = "1234,567.89"
  ∧ rows_of (collected (Account_get_data
                (account_over "Main" None
                   (textual [("2024-01-01", "1,234,567.89", "Bonus")])))
               unreachable world0)
    = Raise (InvalidOperationError "conversion from str to f64 failed")
  ∧ rows_of (collected (Account_get_data
                (account_over "Main" None
                   (textual [("2024-01-01", "1,234.56", "Bonus")])))
               unreachable world0)
    = Ok [[pl.Str "Main"; pl.Dt 1704067200000000; pl.Str "Bonus";
           pl.F64 (dec 123456 2)]].
Proof. vm_compute. auto. Qed.

Lemma collection_rows_are_the_members_rows_witness :
  ∃ dfs : list pl.DataFrame,
    mapM (fun a => collected (Account_get_data a)) (accounts twice_the_same)
      unreachable world0 = (Ok dfs, world0)
    ∧ [[pl.Str "Main"; pl.Dt 1704067200000000; pl.Str "Coffee"; pl.F64 (dec 500 2)];
       [pl.Str "Main"; pl.Dt 1704067200000000; pl.Str "Coffee"; pl.F64 (dec 500 2)]]
      = concat (pl.rows <$> dfs)
    ∧ 2%nat = sum_list (pl.height <$> dfs).
Proof.
  apply (collection_rows_are_the_members_rows twice_the_same unreachable world0 world0
           {| pl.schema := [("account_name", pl.String_); ("date", pl.Datetime);
                            ("transaction", pl.String_); ("amount", pl.Float64)];
              pl.rows := [[pl.Str "Main"; pl.Dt 1704067200000000; pl.Str "Coffee";
                           pl.F64 (dec 500 2)];
                          [pl.Str "Main"; pl.Dt 1704067200000000; pl.Str "Coffee";
                           pl.F64 (dec 500 2)]] |}).
  vm_compute. reflexivity.
Defined.

(** An empty collection has no frame to count: [pl.concat] refuses it. *)
Example empty_collection_is_refused :
  AccountCollection_get_data {| accounts := [] |}
  = Raise (ValueError "cannot concat empty list").
Proof. reflexivity. Qed.
End AccountExamples.

(** * Facts about the reconciler (export/bagels.py) *)

Section ReconcilerFacts.
Context `{Kernels}.
Import models bagels.

Lemma bind_returns {A B} (m : M A) (k : A → M B) sv w b w' :
  bind m k sv w = (Ok b, w') →
  ∃ a w1, m sv w = (Ok a, w1) ∧ k a sv w1 = (Ok b, w').
Proof.
  unfold bind. destruct (m sv w) as [[a|e] w1]; [eauto | discriminate].
Qed.

Lemma lift_returns {A} (r : result A) sv w a w' :
  lift r sv w = (Ok a, w') → r = Ok a ∧ w' = w.
Proof. unfold lift. intros Heq. inversion Heq; subst. auto. Qed.

Lemma insert_account_keeps_records name now conn :
  record (insert_account name now conn) = record conn.
Proof. reflexivity. Qed.

Lemma create_accounts_keeps_records account_names now conn :
  record (create_accounts account_names now conn) = record conn.
Proof.
  unfold create_accounts. generalize (account_name <$> account conn) as existing.
  intros existing. revert conn.
  induction account_names as [|name names IH]; intros conn; [reflexivity|].
  simpl. rewrite IH. destruct (decide (name ∈ existing)); reflexivity.
Qed.

Lemma create_cateogry_keeps_records name color now conn :
  record (snd (create_cateogry name color now conn)) = record conn.
Proof. reflexivity. Qed.

(** [create_cateogry] inserts a row on every call: the table is one row
    longer afterwards, whether or not the name was there. *)
Lemma create_cateogry_always_inserts name color now conn :
  ∃ new, category (snd (create_cateogry name color now conn)) = (category conn ++ [new])%list
         ∧ category_name new = name
         ∧ category_id new = next_id (category_id <$> category conn).
Proof. eexists. split; [reflexivity|]. split; reflexivity. Qed.

Lemma hd_first_of_that_name name d before c rest :
  Forall (fun b => category_name b ≠ name) before →
  category_name c = name →
  hd d (category_id <$> List.filter (fun c => bool_decide (category_name c = name))
                          (before ++ c :: rest))
  = category_id c.
Proof.
  intros Hbefore Hname. induction Hbefore as [|b before Hb _ IH]; simpl.
  - rewrite bool_decide_eq_true_2 by assumption. reflexivity.
  - rewrite bool_decide_eq_false_2 by assumption. exact IH.
Qed.

(** X25. The identifier [create_cateogry] returns is that of the first row
    of that name: of the row that was there before, when there was one. *)
Lemma create_cateogry_returns_existing name color now conn before c after :
  category conn = (before ++ c :: after)%list →
  Forall (fun b => category_name b ≠ name) before →
  category_name c = name →
  fst (create_cateogry name color now conn) = category_id c.
Proof.
  intros Htable Hbefore Hname. unfold create_cateogry. simpl. rewrite Htable.
  rewrite <- app_assoc. simpl. apply hd_first_of_that_name; assumption.
Qed.

Lemma create_cateogry_returns_new name color now conn :
  Forall (fun b => category_name b ≠ name) (category conn) →
  fst (create_cateogry name color now conn) = next_id (category_id <$> category conn).
Proof.
  intros Hnone. unfold create_cateogry. simpl.
  rewrite hd_first_of_that_name by (assumption || reflexivity). reflexivity.
Qed.

(** Writing a frame without rows leaves the store as it was. *)
Lemma write_database_empty (df : pl.DataFrame) conn :
  pl.rows df = [] → write_database df conn = conn.
Proof. intros Hrows. unfold write_database. rewrite Hrows. destruct conn; reflexivity. Qed.

(** Writing a frame appends one record per row. *)
Lemma write_database_length (df : pl.DataFrame) conn :
  length (record (write_database df conn))
  = (length (record conn) + length (pl.rows df))%nat.
Proof.
  unfold write_database. simpl. generalize (record conn) as tbl.
  induction (pl.rows df) as [|r rows IH]; intros tbl; simpl; [lia|].
  rewrite IH, length_app. simpl. lia.
Qed.

(** Up to the collection of the new rows, only the account and category
    tables are touched. *)
Lemma new_records_keeps_records account now conn sv w df conn' w' :
  new_records account now conn sv w = (Ok (df, conn'), w') →
  record conn' = record conn.
Proof.
  unfold new_records. intros Hrun.
  apply bind_returns in Hrun as (data & w1 & _ & Hrun).
  apply bind_returns in Hrun as (names & w2 & _ & Hrun).
  destruct (create_cateogry "imported" "blue" now (create_accounts names now conn))
    as [cid conn2] eqn:Hcat.
  apply bind_returns in Hrun as (account_table & w3 & _ & Hrun).
  apply bind_returns in Hrun as (record_table & w4 & _ & Hrun).
  apply bind_returns in Hrun as (counted & w5 & _ & Hrun).
  apply bind_returns in Hrun as (collected_df & w6 & _ & Hrun).
  inversion Hrun; subst.
  change conn' with (snd (cid, conn')). rewrite <- Hcat.
  rewrite create_cateogry_keeps_records. apply create_accounts_keeps_records.
Qed.

(** X23. The write decision of [save_to_bagel]: the record table is written
    only with a frame that has no rows, so a run that returns leaves the
    record table exactly as it found it. *)
Lemma save_to_bagel_never_adds_a_record account now conn sv w conn' w' :
  save_to_bagel account now conn sv w = (Ok conn', w') →
  record conn' = record conn.
Proof.
  unfold save_to_bagel. intros Hrun.
  apply bind_returns in Hrun as ([df conn1] & w1 & Hnew & Hrun).
  apply new_records_keeps_records in Hnew.
  destruct (pl.is_empty df) eqn:Hempty; inversion Hrun; subst.
  - apply bool_decide_eq_true_1 in Hempty.
    rewrite write_database_empty by assumption. assumption.
  - assumption.
Qed.

(** The rows an anti-join keeps: those rows of the left frame whose key
    matches the key of no row of the right frame. *)
Lemma join_anti_survivors on (left right out : pl.DataFrame) :
  pl.join_anti on left right = Ok out →
  ∃ li ri, pl.check_keys on left right = Ok (li, ri)
    ∧ pl.schema out = pl.schema left
    ∧ ∀ r, r ∈ pl.rows out ↔
           r ∈ pl.rows left
           ∧ ∀ e, e ∈ pl.rows right →
                  pl.keys_match (pl.key_of li r) (pl.key_of ri e) = false.
Proof.
  unfold pl.join_anti. intros Hjoin.
  destruct (pl.check_keys on left right) as [[li ri]|e]; [|discriminate].
  simpl in Hjoin. inversion Hjoin; subst. exists li, ri.
  split; [reflexivity|]. split; [reflexivity|]. simpl. intros r.
  rewrite !list_elem_of_In, filter_In, negb_true_iff.
  unfold pl.has_match. split.
  - intros [Hin Hnone]. split; [assumption|]. intros e He.
    apply list_elem_of_In in He.
    destruct (pl.keys_match (pl.key_of li r) (pl.key_of ri e)) eqn:Hm; [|reflexivity].
    assert (Hex : existsb (fun e => pl.keys_match (pl.key_of li r) (pl.key_of ri e))
                    (pl.rows right) = true) by (apply existsb_exists; eauto).
    congruence.
  - intros [Hin Hnone]. split; [assumption|].
    destruct (existsb _ (pl.rows right)) eqn:Hex; [|reflexivity].
    apply existsb_exists in Hex as (e & He & Hm).
    apply list_elem_of_In in He. rewrite (Hnone e He) in Hm. discriminate.
Qed.
Lemma get_table_record conn :
  get_table "record" conn
  = Ok (ret {| pl.schema := record_schema;
               pl.rows := (fun r => [pl.I64 (record_id r); createdAt r; updatedAt r;
                                     label r; amount r; date r; accountId r;
                                     categoryId r; isIncome r; isInProgress r;
                                     isTransfer r])
                            <$> record conn |}).
Proof. reflexivity. Qed.

(** The count that guards the reconciling join is the number of records. *)
Lemma count_of_record_table conn (record_table : pl.LazyFrame) sv w counted w' :
  get_table "record" conn = Ok record_table →
  record_table sv w = (Ok counted, w') →
  pl.count_item_0_0 counted = Z.of_nat (length (record conn)).
Proof.
  rewrite get_table_record. intros Htable Hrun.
  inversion Htable; subst. inversion Hrun; subst. clear Htable Hrun.
  unfold pl.count_item_0_0. simpl. f_equal.
  induction (record conn) as [|r rest IH]; [reflexivity|].
  simpl. rewrite ?bool_decide_eq_false_2 by discriminate. simpl. f_equal. exact IH.
Qed.

(** X24. What the code delivers of C2.  When the store holds at
    least one record, the frame of new rows that [save_to_bagel] collects
    holds exactly those incoming rows (as prepared for the store) whose
    (label, amount, date) key matches the key of no existing record (as
    processed from the store). *)
Lemma new_records_are_the_unmatched_rows account now conn sv w df conn' w' :
  record conn ≠ [] →
  new_records account now conn sv w = (Ok (df, conn'), w') →
  ∃ (incoming existing : pl.DataFrame) li ri,
    pl.check_keys ["label"; "amount"; "date"] incoming existing = Ok (li, ri)
    ∧ (∃ data account_table cid w0 w1,
          get_data account = Ok data
          ∧ get_table "account" conn' = Ok account_table
          ∧ prepare_dataframe data account_table cid (pl.lit pl.Datetime (pl.Dt now)) sv w0
            = (Ok incoming, w1))
    ∧ (∃ record_table w1 w2,
          get_table "record" conn' = Ok record_table
          ∧ process_record_table record_table sv w1 = (Ok existing, w2))
    ∧ ∀ r, r ∈ pl.rows df ↔
           r ∈ pl.rows incoming
           ∧ ∀ e, e ∈ pl.rows existing →
                  pl.keys_match (pl.key_of li r) (pl.key_of ri e) = false.
Proof.
  intros Hsome Hrun.
  pose proof (new_records_keeps_records _ _ _ _ _ _ _ _ Hrun) as Hrecords.
  unfold new_records in Hrun.
  apply bind_returns in Hrun as (data & w1 & Hdata & Hrun).
  apply lift_returns in Hdata as [Hdata ->].
  apply bind_returns in Hrun as (names & w2 & _ & Hrun).
  destruct (create_cateogry "imported" "blue" now (create_accounts names now conn))
    as [cid conn2] eqn:Hcat.
  apply bind_returns in Hrun as (account_table & w3 & Haccounts & Hrun).
  apply lift_returns in Haccounts as [Haccounts ->].
  apply bind_returns in Hrun as (record_table & w4 & Htable & Hrun).
  apply lift_returns in Htable as [Htable ->].
  apply bind_returns in Hrun as (counted & w5 & Hcount & Hrun).
  apply bind_returns in Hrun as (collected_df & w6 & Hcollect & Hrun).
  inversion Hrun; subst. clear Hrun.
  rewrite (count_of_record_table _ _ _ _ _ _ Htable Hcount), Hrecords in Hcollect.
  destruct (0 <? Z.of_nat (length (record conn))) eqn:Hpos.
  2:{ exfalso. apply Z.ltb_ge in Hpos. destruct (record conn); [contradiction|].
      simpl in Hpos. lia. }
  unfold lazy_join_anti in Hcollect.
  apply bind_returns in Hcollect as (incoming & w7 & Hincoming & Hcollect).
  apply bind_returns in Hcollect as (existing & w8 & Hexisting & Hcollect).
  apply lift_returns in Hcollect as [Hjoin ->].
  destruct (join_anti_survivors _ _ _ _ Hjoin) as (li & ri & Hkeys & _ & Hrows).
  exists incoming, existing, li, ri. split; [assumption|]. split; [|split].
  - exists data, account_table, cid. eauto.
  - exists record_table. eauto.
  - assumption.
Qed.
End ReconcilerFacts.

Section ReconcilerExamples.
Import runtime currency models bagels scenario.

(** C1. The store is empty and two rows come in.  Both survive (the
    reconciling join is skipped), but the frame is written only in the
    branch taken when it is empty: the run takes the branch that logs
    "No new records to write" and the record table stays empty. *)
Theorem empty_store_new_rows_are_not_written :
  let incoming := OfAccount (account_over "Main" None coffee_and_rent) in
  new_rows_of (new_records incoming now empty_store unreachable world0)
  = Ok [[pl.Dt now; pl.Dt now; pl.Str "Coffee"; pl.F64 (dec 500 2);
         pl.Dt 1704067200000000; pl.I64 1; pl.I64 1;
         pl.Bool true; pl.Bool false; pl.Bool false];
        [pl.Dt now; pl.Dt now; pl.Str "Rent"; pl.F64 (dec 120000 2);
         pl.Dt 1704153600000000; pl.I64 1; pl.I64 1;
         pl.Bool true; pl.Bool false; pl.Bool false]]
  ∧ records_of (save_to_bagel incoming now empty_store unreachable world0) = Ok [].
Proof. vm_compute. auto. Qed.

(** The write is reached exactly when there is nothing to write: the
    store already holds the one incoming row. *)
Example nothing_new_takes_the_write_branch :
  let incoming := OfAccount (account_over "Main" None
                               (textual [("2024-01-01", "5.00", "Coffee")])) in
  new_rows_of (new_records incoming now store_with_coffee unreachable world0) = Ok []
  ∧ records_of (save_to_bagel incoming now store_with_coffee unreachable world0)
    = Ok [coffee_record].
Proof. vm_compute. auto. Qed.

(** C2. The store holds (Coffee, 5.00, 2024-01-01); Coffee and Rent come
    in.  The anti-join keeps exactly the Rent row, but the Rent row is
    not written: the record table still holds the Coffee record alone. *)
Theorem rent_survives_but_is_not_written :
  let incoming := OfAccount (account_over "Main" None coffee_and_rent) in
  new_rows_of (new_records incoming now store_with_coffee unreachable world0)
  = Ok [[pl.Dt now; pl.Dt now; pl.Str "Rent"; pl.F64 (dec 120000 2);
         pl.Dt 1704153600000000; pl.I64 1; pl.I64 1;
         pl.Bool true; pl.Bool false; pl.Bool false]]
  ∧ records_of (save_to_bagel incoming now store_with_coffee unreachable world0)
    = Ok [coffee_record].
Proof. vm_compute. auto. Qed.

(** C7. The store already has the category "imported" with identifier 1.
    [create_cateogry] resolves to 1, and inserts a second category of the
    same name with identifier 2. *)
Theorem existing_category_is_inserted_again :
  create_cateogry "imported" "blue" now store_with_coffee
  = (1, {| account := [main_account];
           category := [imported_category;
                        {| category_id := 2; category_name := "imported";
                           category_createdAt := now; category_updatedAt := now;
                           nature := "NEED"; color := "blue" |}];
           record := [coffee_record] |}).
Proof. vm_compute. reflexivity. Qed.

(** Seen from a whole run: every export adds one more "imported". *)
Example every_run_adds_a_category :
  let incoming := OfAccount (account_over "Main" None coffee_and_rent) in
  match fst (save_to_bagel incoming now store_with_coffee unreachable world0) with
  | Ok conn => category_name <$> category conn
  | Raise _ => []
  end = ["imported"; "imported"].
Proof. vm_compute. reflexivity. Qed.
End ReconcilerExamples.

(** * Further properties of the rate resolver (currency.py) *)

Section ResolverProperties.
Context `{Kernels}.
Import currency.

(** X1. A call whose argument tuple is not in the memo table issues
    exactly one request, whatever comes of it: to the URL built from the
    lower-cased source currency and the date.  The target currency and
    the default rate do not enter the URL. *)
Theorem resolver_miss_issues_one_request frm to d dr (sv : service) (w : world) :
  memo_get (frm, to, d, dr) (memo w) = None →
  fetched (snd (get_currency_rate frm to d dr sv w))
  = (fetched w ++ [BASE_URL_format (lower frm) (date_str d)])%list.
Proof.
  intros Hmiss. unfold get_currency_rate. rewrite Hmiss.
  destruct (get_currency_rate__wrapped frm to d dr sv w) as [[v|e] w1] eqn:Hbody;
    apply wrapped_world in Hbody as [Hf _]; simpl; assumption.
Qed.

(** X2. A call that raises leaves the memo table as it was, so the same
    call made again asks the service again: after the second call the
    log holds the same URL twice more than before the first. *)
Theorem resolver_raise_is_retried frm to d dr (sv : service) (w w1 : world) e :
  get_currency_rate frm to d dr sv w = (Raise e, w1) →
  memo w1 = memo w
  ∧ fetched (snd (get_currency_rate frm to d dr sv w1))
    = (fetched w ++ [BASE_URL_format (lower frm) (date_str d);
                     BASE_URL_format (lower frm) (date_str d)])%list.
Proof.
  intros Hfirst. unfold get_currency_rate in Hfirst.
  destruct (memo_get (frm, to, d, dr) (memo w)) as [v|] eqn:Hmiss; [discriminate|].
  destruct (get_currency_rate__wrapped frm to d dr sv w) as [[v|e'] w'] eqn:Hbody;
    [discriminate|].
  inversion Hfirst; subst. apply wrapped_world in Hbody as [Hf Hm].
  split; [assumption|].
  rewrite resolver_miss_issues_one_request by (rewrite Hm; assumption).
  rewrite Hf, <- app_assoc. reflexivity.
Qed.

(** X3. A call changes what the memo table answers for its own argument
    tuple only.  The tuple is compared as passed, so a call that differs
    in letter case ("USD" and "usd" reach the same URL), in the form of
    the date or in the default rate is not served by the entry. *)
Theorem resolver_leaves_other_tuples_alone
    frm to d dr (sv : service) (w : world) (k : memo_key) :
  k ≠ (frm, to, d, dr) →
  memo_get k (memo (snd (get_currency_rate frm to d dr sv w))) = memo_get k (memo w).
Proof.
  intros Hother. unfold get_currency_rate.
  destruct (memo_get (frm, to, d, dr) (memo w)); [reflexivity|].
  destruct (get_currency_rate__wrapped frm to d dr sv w) as [[v|e] w1] eqn:Hbody;
    apply wrapped_world in Hbody as [_ Hm]; simpl.
  - destruct (decide (k = (frm, to, d, dr))); [contradiction|]. rewrite Hm. reflexivity.
  - rewrite Hm. reflexivity.
Qed.

(** X4. An answer whose status the gate rejects is memoised as the
    default rate: the call returns the default ([None] when there is
    none) without raising, and every later call with the same tuple
    returns it again without asking, whatever the service would answer
    by then. *)
Theorem rejected_answer_is_memoised_as_default
    frm to d dr (sv sv' : service) (w : world) resp :
  memo_get (frm, to, d, dr) (memo w) = None →
  sv (length (fetched w)) (BASE_URL_format (lower frm) (date_str d)) = Some resp →
  status_code resp mod 200 ≠ 0 →
  let w1 := snd (get_currency_rate frm to d dr sv w) in
  fst (get_currency_rate frm to d dr sv w) = Ok dr
  ∧ get_currency_rate frm to d dr sv' w1 = (Ok dr, w1).
Proof.
  intros Hmiss Hresp Hstatus w1.
  pose proof (wrapped_status_gate frm to d dr sv w resp Hresp Hstatus) as Hbody.
  assert (Hfirst : get_currency_rate frm to d dr sv w = (Ok dr, w1)).
  { subst w1. unfold get_currency_rate in *. rewrite Hmiss.
    destruct (get_currency_rate__wrapped frm to d dr sv w) as [[v|e] w'];
      simpl in Hbody; inversion Hbody; subst; reflexivity. }
  split; [rewrite Hfirst; reflexivity|].
  apply resolver_hit. eapply resolver_memoises. exact Hfirst.
Qed.

Lemma batch_of_hits n c to d v sv w :
  memo_get (c, to, d, None) (memo w) = Some v →
  mapM (fun cd : option string * date_or_latest =>
          match cd.1 with
          | Some c => get_currency_rate c to cd.2 None
          | None => raise (AttributeError "object has no attribute 'lower'")
          end) (replicate n (Some c, d)) sv w
  = (Ok (replicate n v), w).
Proof.
  intros Hhit. induction n as [|n IH]; [reflexivity|].
  simpl. unfold bind. rewrite (resolver_hit _ _ _ _ _ _ _ Hhit), IH. reflexivity.
Qed.

(** X5. The batched resolver asks at most once for a pair that fills the
    whole batch: however many rows carry the same currency and date, the
    rows after the first are served from the memo table. *)
Theorem batch_of_one_pair_fetches_at_most_once
    (n : nat) c to d dr (sv : service) (w : world) :
  (length (fetched (snd (get_currency_rate_batches
                           (replicate n (Some c)) to (replicate n d) dr sv w)))
   ≤ S (length (fetched w)))%nat.
Proof.
  unfold get_currency_rate_batches.
  replace (zip (replicate n (Some c)) (replicate n d)) with (replicate n (Some c, d))
    by (induction n; simpl; congruence).
  destruct n as [|n]; [simpl; lia|].
  simpl. unfold bind.
  destruct (get_currency_rate c to d None sv w) as [[v|e] w1] eqn:Hfirst.
  - rewrite (batch_of_hits n c to d v sv w1) by (eapply resolver_memoises; eassumption).
    simpl. eapply resolver_fetches_at_most_once. eassumption.
  - simpl. eapply resolver_fetches_at_most_once. eassumption.
Qed.

(** X6. When the batched resolver returns, it returns one rate per pair
    of the zipped inputs: as many as the shorter of the two Series. *)
Theorem batch_returns_one_rate_per_pair
    cs to ds dr (sv : service) (w w' : world) rates :
  get_currency_rate_batches cs to ds dr sv w = (Ok rates, w') →
  length rates = min (length cs) (length ds).
Proof.
  unfold get_currency_rate_batches. intros Hrun.
  apply mapM_length in Hrun. rewrite Hrun. apply length_zip_with.
Qed.
End ResolverProperties.

(** * Further properties of the loaders and of accounts (models.py) *)

Section LoadingProperties.
Import models.
Context {R : Type} (suffix : string → string) (FILE_READERS : FileType → list string → R).

Lemma FileType_value_inj ft ft' : FileType_value ft = FileType_value ft' → ft = ft'.
Proof. destruct ft, ft'; simpl; intros Heq; try reflexivity; discriminate Heq. Qed.

Lemma find_file_type sfx :
  match List.find (fun ft => bool_decide (FileType_value ft = sfx)) FileType_members with
  | Some ft => FileType_value ft = sfx
  | None => ∀ ft, FileType_value ft ≠ sfx
  end.
Proof.
  destruct (List.find _ FileType_members) as [ft|] eqn:Hfind.
  - apply find_some in Hfind as [_ Hv]. apply bool_decide_eq_true_1 in Hv. exact Hv.
  - intros ft Hv.
    assert (Hin : In ft FileType_members) by (destruct ft; simpl; auto).
    pose proof (find_none _ _ Hfind ft Hin) as Hno. simpl in Hno.
    apply bool_decide_eq_false_1 in Hno. contradiction.
Qed.

Lemma same_suffix_spec sfx (l : list string) :
  forallb (fun p => bool_decide (suffix p = sfx)) l = true
  ↔ Forall (fun p => suffix p = sfx) l.
Proof.
  induction l as [|p l IH]; simpl.
  - split; [constructor | reflexivity].
  - rewrite andb_true_iff, bool_decide_eq_true, IH. split.
    + intros [Hp Hl]. constructor; assumption.
    + intros Hall. inversion Hall; subst. auto.
Qed.

(** X7. [_read_data] returns exactly when the list is not empty and all
    its paths carry one and the same supported suffix; what it returns
    is then the reader of that file type applied to the whole list. *)
Theorem read_data_returns_iff (file_path : list string) (r : R) :
  _read_data suffix FILE_READERS (Paths file_path) = Returned r
  ↔ ∃ ft, file_path ≠ []
          ∧ Forall (fun p => suffix p = FileType_value ft) file_path
          ∧ r = FILE_READERS ft file_path.
Proof.
  simpl. unfold _read_data_list. destruct file_path as [|first rest].
  - split; [discriminate|]. intros (ft & Hne & _). contradiction.
  - pose proof (find_file_type (suffix first)) as Hfind.
    destruct (List.find _ FileType_members) as [ft|].
    + destruct (forallb _ (first :: rest)) eqn:Hsame.
      * apply same_suffix_spec in Hsame. split.
        -- intros Hret. inversion Hret; subst. exists ft.
           split; [discriminate|]. split; [|reflexivity].
           rewrite Hfind. exact Hsame.
        -- intros (ft' & _ & Hall & ->).
           assert (ft' = ft) as ->; [|reflexivity].
           apply FileType_value_inj. inversion Hall; subst. congruence.
      * split; [discriminate|]. intros (ft' & _ & Hall & _).
        assert (Hyes : forallb (fun p => bool_decide (suffix p = suffix first))
                         (first :: rest) = true).
        { apply same_suffix_spec. inversion Hall as [|? ? Hfirst Hrest]; subst.
          rewrite Hfirst. exact Hall. }
        congruence.
    + split; [discriminate|]. intros (ft' & _ & Hall & _).
      inversion Hall as [|? ? Hfirst Hrest]; subst.
      exfalso. apply (Hfind ft'). symmetry. exact Hfirst.
Qed.

(** X8. How [_read_data] refuses a list.  The suffix of the first path
    decides first: if it is no supported suffix the list is refused as
    an unsupported file type, whatever the other paths are; only when it
    is supported are the other paths compared with it, and the list
    refused if one differs.  An empty list fails on the lookup of its
    first element. *)
Theorem read_data_raises_iff (file_path : list string) (e : raised) :
  _read_data suffix FILE_READERS (Paths file_path) = Raised e
  ↔ (file_path = [] ∧ e = IndexError "list index out of range")
    ∨ (∃ first rest,
          file_path = first :: rest
          ∧ (∀ ft, FileType_value ft ≠ suffix first)
          ∧ e = Inside (ValueError
                          ("Unsupported file type for " ++ py_repr_list file_path
                             ++ " with suffix " ++ suffix first)))
    ∨ (∃ first rest ft,
          file_path = first :: rest
          ∧ FileType_value ft = suffix first
          ∧ ¬ Forall (fun p => suffix p = suffix first) rest
          ∧ e = Inside (ValueError "All files must have the same suffix")).
Proof.
  simpl. unfold _read_data_list. destruct file_path as [|first rest].
  - split.
    + intros Hr. inversion Hr. left. auto.
    + intros [[_ ->]|[(f & r' & Hl & _)|(f & r' & ft & Hl & _)]];
        [reflexivity | discriminate Hl | discriminate Hl].
  - pose proof (find_file_type (suffix first)) as Hfind.
    destruct (List.find _ FileType_members) as [ft|].
    + destruct (forallb _ (first :: rest)) eqn:Hsame.
      * apply same_suffix_spec in Hsame. split; [discriminate|].
        intros [[Hl _]|[(f & r' & Hl & Hno & _)|(f & r' & ft' & Hl & _ & Hdiff & _)]].
        -- discriminate Hl.
        -- inversion Hl; subst. exfalso. apply (Hno ft). exact Hfind.
        -- inversion Hl; subst. exfalso. apply Hdiff.
           inversion Hsame; subst. assumption.
      * split.
        -- intros Hr. inversion Hr; subst. right. right.
           exists first, rest, ft. split; [reflexivity|]. split; [exact Hfind|].
           split; [|reflexivity]. intros Hall.
           assert (Hyes : forallb (fun p => bool_decide (suffix p = suffix first))
                            (first :: rest) = true).
           { apply same_suffix_spec. constructor; [reflexivity | exact Hall]. }
           congruence.
        -- intros [[Hl _]|[(f & r' & Hl & Hno & _)|(f & r' & ft' & Hl & _ & _ & ->)]].
           ++ discriminate Hl.
           ++ inversion Hl; subst. exfalso. apply (Hno ft). exact Hfind.
           ++ reflexivity.
    + split.
      * intros Hr. inversion Hr; subst. right. left.
        exists first, rest. auto.
      * intros [[Hl _]|[(f & r' & Hl & _ & ->)|(f & r' & ft' & Hl & Hv & _)]].
        -- discriminate Hl.
        -- inversion Hl; subst. reflexivity.
        -- inversion Hl; subst. exfalso. apply (Hfind ft'). exact Hv.
Qed.
End LoadingProperties.

Section AccountProperties.
Context `{Kernels}.
Import currency models.

Lemma map_cells_returns out f (s s' : pl.Series) :
  pl.map_cells out f s = Ok s' →
  pl.dtype_of s' = out ∧ length (pl.values s') = length (pl.values s).
Proof.
  unfold pl.map_cells. intros Hmap.
  destruct (pl.result_mapM f (pl.values s)) as [vs|e] eqn:Hvs; [|discriminate].
  inversion Hmap; subst. simpl. split; [reflexivity|]. clear Hmap.
  revert vs Hvs. induction (pl.values s) as [|c cs IH]; intros vs Hvs.
  - inversion Hvs. reflexivity.
  - simpl in Hvs. destruct (f c); [|discriminate].
    destruct (pl.result_mapM f cs) as [vs'|]; [|discriminate].
    inversion Hvs; subst. simpl. f_equal. apply IH. reflexivity.
Qed.

Lemma str_op_dtype out f (e : pl.Expr) df sv w s w' :
  pl.str_op out f e df sv w = (Ok s, w') → pl.dtype_of s = out.
Proof.
  unfold pl.str_op, bind, lift, raise. intros Hrun.
  destruct (e df sv w) as [[s0|err] w0]; [|discriminate].
  destruct (pl.dtype_of s0); try discriminate.
  destruct (pl.map_cells out _ s0) as [s1|err] eqn:Hmap; inversion Hrun; subst.
  apply map_cells_returns in Hmap as [Hd _]. exact Hd.
Qed.

Lemma cast_Datetime_us_dtype (e : pl.Expr) df sv w s w' :
  pl.cast_Datetime_us e df sv w = (Ok s, w') → pl.dtype_of s = pl.Datetime.
Proof.
  unfold pl.cast_Datetime_us, bind, lift, raise. intros Hrun.
  destruct (e df sv w) as [[s0|err] w0]; [|discriminate].
  destruct (pl.dtype_of s0); try discriminate;
    destruct (pl.map_cells pl.Datetime _ s0) as [s1|err] eqn:Hmap;
    inversion Hrun; subst; apply map_cells_returns in Hmap as [Hd _]; exact Hd.
Qed.

Lemma Account_date_dtype (self : Account) date df sv w s w' :
  Account_date self = Ok date →
  date df sv w = (Ok s, w') → pl.dtype_of s = pl.Datetime.
Proof.
  unfold Account_date. intros Hdate Hrun.
  destruct (schema_getitem (data_schema self) (date_col self)) as [d|]; [|discriminate].
  simpl in Hdate.
  destruct d; inversion Hdate; subst; eapply cast_Datetime_us_dtype; eassumption.
Qed.

Lemma insert_by_length i r (l : list (list pl.cell)) :
  length (pl.insert_by i r l) = S (length l).
Proof.
  induction l as [|r' l IH]; [reflexivity|].
  simpl. destruct (pl.cell_leb _ _); simpl; [rewrite IH|]; reflexivity.
Qed.

Lemma sort_returns by_ (df sorted : pl.DataFrame) :
  pl.sort by_ df = Ok sorted →
  pl.schema sorted = pl.schema df ∧ pl.height sorted = pl.height df.
Proof.
  unfold pl.sort. destruct (pl.index_of by_ (pl.columns df)) as [i|]; [|discriminate].
  intros Hs. inversion Hs; subst. split; [reflexivity|].
  unfold pl.height. simpl.
  assert (Hgen : ∀ rows acc,
             length (foldl (fun acc r => pl.insert_by i r acc) acc rows)
             = (length acc + length rows)%nat).
  { induction rows as [|r rows IH]; intros acc; simpl; [lia|].
    rewrite IH, insert_by_length. lia. }
  rewrite Hgen. reflexivity.
Qed.

Lemma remove_dups_shorter {A} `{EqDecision A} (l : list A) :
  (length (remove_dups l) ≤ length l)%nat.
Proof.
  induction l as [|x l IH]; simpl; [lia|].
  destruct (decide_rel elem_of x l); simpl; lia.
Qed.

(** What [get_data] has built when its frame collects: the four columns
    evaluated on the sorted source, in the order written. *)
Lemma get_data_collects (self : Account) (lf : pl.LazyFrame) sv w df w' :
  Account_get_data self = Ok lf →
  lf sv w = (Ok df, w') →
  ∃ date amount c1 c2 c3 sorted w1 w2,
    Account_date self = Ok date
    ∧ Account_amount self = Ok amount
    ∧ pl.sort (date_col self) (data self) = Ok sorted
    ∧ date sorted sv w = (Ok c1, w1)
    ∧ Account_transaction self sorted sv w1 = (Ok c2, w2)
    ∧ amount sorted sv w2 = (Ok c3, w')
    ∧ pl.schema df = [("account_name", pl.String_); ("date", pl.dtype_of c1);
                      ("transaction", pl.dtype_of c2); ("amount", pl.dtype_of c3)]
    ∧ pl.rows df
      = remove_dups
          ((fun i => [pl.Str (name self);
                      default pl.Null (pl.values c1 !! i);
                      default pl.Null (pl.values c2 !! i);
                      default pl.Null (pl.values c3 !! i)])
             <$> seq 0 (pl.height sorted)).
Proof.
  unfold Account_get_data. intros Hget Hrun.
  destruct (assert_columns self _) as [[]|]; [|discriminate]. simpl in Hget.
  destruct (Account_date self) as [date|] eqn:Hdate; [|discriminate]. simpl in Hget.
  destruct (Account_amount self) as [amount|] eqn:Hamount; [|discriminate].
  simpl in Hget. inversion Hget; subst. clear Hget.
  unfold bind, lift, ret, pl.select in Hrun.
  destruct (pl.sort (date_col self) (data self)) as [sorted|] eqn:Hsort; [|discriminate].
  simpl in Hrun. unfold bind, ret, pl.lit in Hrun. simpl in Hrun.
  destruct (date sorted sv w) as [[c1|] w1] eqn:H1; [|discriminate].
  destruct (Account_transaction self sorted sv w1) as [[c2|] w2] eqn:H2; [|discriminate].
  destruct (amount sorted sv w2) as [[c3|] w3] eqn:H3; [|discriminate].
  inversion Hrun; subst. clear Hrun.
  exists date, amount, c1, c2, c3, sorted, w1, w2.
  repeat (split; [reflexivity || assumption|]).
  simpl. f_equal. apply list_fmap_ext. intros k i Hi. simpl.
  apply lookup_seq in Hi as [-> Hlt]. simpl.
  rewrite lookup_replicate_2 by (unfold pl.height in Hlt; simpl in Hlt; lia).
  reflexivity.
Qed.

(** X9. The shape of a collected account.  The frame has the four
    canonical columns, in this order, with the account name a String,
    the date a Datetime and the transaction a String column; and every
    row carries the account's name in its first cell. *)
Theorem get_data_has_the_canonical_shape
    (self : Account) (lf : pl.LazyFrame) (sv : service) (w w' : world)
    (df : pl.DataFrame) :
  Account_get_data self = Ok lf →
  lf sv w = (Ok df, w') →
  (∃ amount_dtype,
      pl.schema df = [("account_name", pl.String_); ("date", pl.Datetime);
                      ("transaction", pl.String_); ("amount", amount_dtype)])
  ∧ ∀ r, r ∈ pl.rows df → ∃ d t a, r = [pl.Str (name self); d; t; a].
Proof.
  intros Hget Hrun.
  destruct (get_data_collects self lf sv w df w' Hget Hrun)
    as (date & amount & c1 & c2 & c3 & sorted & w1 & w2
        & Hdate & _ & _ & H1 & H2 & _ & Hschema & Hrows).
  split.
  - exists (pl.dtype_of c3). rewrite Hschema.
    rewrite (Account_date_dtype _ _ _ _ _ _ _ Hdate H1).
    unfold Account_transaction, pl.str_strip_chars in H2.
    rewrite (str_op_dtype _ _ _ _ _ _ _ _ H2). reflexivity.
  - intros r Hr. rewrite Hrows, elem_of_remove_dups in Hr.
    apply list_elem_of_fmap in Hr as (i & -> & _). eauto.
Qed.

(** X10. A collected account holds no row twice, and no more rows than
    its source has. *)
Theorem get_data_rows_are_distinct
    (self : Account) (lf : pl.LazyFrame) (sv : service) (w w' : world)
    (df : pl.DataFrame) :
  Account_get_data self = Ok lf →
  lf sv w = (Ok df, w') →
  NoDup (pl.rows df) ∧ (pl.height df ≤ pl.height (data self))%nat.
Proof.
  intros Hget Hrun.
  destruct (get_data_collects self lf sv w df w' Hget Hrun)
    as (date & amount & c1 & c2 & c3 & sorted & w1 & w2
        & _ & _ & Hsort & _ & _ & _ & _ & Hrows).
  apply sort_returns in Hsort as [_ Hheight].
  unfold pl.height at 1. rewrite Hrows. split.
  - apply NoDup_remove_dups.
  - etransitivity; [apply remove_dups_shorter|].
    rewrite length_fmap, length_seq, Hheight. reflexivity.
Qed.
End AccountProperties.

Section AccountCallProperties.
Context `{Kernels}.
Import currency models.

Lemma Account_amount_present (self : Account) :
  date_col self ∈ pl.columns (data self) →
  amount_col self ∈ pl.columns (data self) →
  ∃ e, Account_amount self = Ok e.
Proof.
  intros Hdate Hamount. unfold Account_amount, data_schema.
  destruct (schema_getitem_present _ _ Hamount) as [d ->]. simpl.
  destruct (currency self); [|eauto].
  destruct (Account_date_present self Hdate) as [de ->]. simpl. eauto.
Qed.

(** X11. What [get_data] does when it is called.  It returns a lazy frame
    exactly when the date, transaction and amount columns are all in the
    schema; the fees column and the currency column are not looked at.
    Otherwise it raises for the first of the three that is missing: an
    [AssertionError] naming the column and listing the columns for the
    date and for the transaction column, a [KeyError] for the amount
    column. *)
Theorem get_data_call_outcome (self : Account) :
  let cols := pl.columns (data self) in
  ((∃ lf, Account_get_data self = Ok lf)
   ↔ date_col self ∈ cols ∧ transaction_col self ∈ cols ∧ amount_col self ∈ cols)
  ∧ ∀ e, Account_get_data self = Raise e
         ↔ ((date_col self ∉ cols)
            ∧ e = AssertionError (assert_message (date_col self) cols))
           ∨ (date_col self ∈ cols ∧ (transaction_col self ∉ cols)
              ∧ e = AssertionError (assert_message (transaction_col self) cols))
           ∨ (date_col self ∈ cols ∧ transaction_col self ∈ cols
              ∧ (amount_col self ∉ cols) ∧ e = KeyError (amount_col self)).
Proof.
  intros cols. subst cols.
  destruct (decide (date_col self ∈ pl.columns (data self))) as [Hd|Hd].
  2:{ pose proof (get_data_missing_date self Hd) as Hr. fold (assert_message
        (date_col self) (pl.columns (data self))) in Hr. rewrite Hr. split.
      - split; [intros [lf Hlf]; discriminate | intros [? _]; contradiction].
      - intros e. split.
        + intros He. inversion He. left. auto.
        + intros [[_ ->]|[[? _]|[? _]]]; [reflexivity | contradiction | contradiction]. }
  destruct (decide (transaction_col self ∈ pl.columns (data self))) as [Ht|Ht].
  2:{ pose proof (get_data_missing_transaction self Hd Ht) as Hr.
      fold (assert_message (transaction_col self) (pl.columns (data self))) in Hr.
      rewrite Hr. split.
      - split; [intros [lf Hlf]; discriminate | intros (_ & ? & _); contradiction].
      - intros e. split.
        + intros He. inversion He. right. left. auto.
        + intros [[? _]|[(_ & _ & ->)|(_ & ? & _)]];
            [contradiction | reflexivity | contradiction]. }
  destruct (decide (amount_col self ∈ pl.columns (data self))) as [Ha|Ha].
  2:{ rewrite (get_data_missing_amount self Hd Ht Ha). split.
      - split; [intros [lf Hlf]; discriminate | intros (_ & _ & ?); contradiction].
      - intros e. split.
        + intros He. inversion He. right. right. auto.
        + intros [[? _]|[(_ & ? & _)|(_ & _ & _ & ->)]];
            [contradiction | contradiction | reflexivity]. }
  assert (Hok : ∃ lf, Account_get_data self = Ok lf).
  { unfold Account_get_data. simpl.
    destruct (decide (date_col self ∈ pl.columns (data self))); [|contradiction].
    destruct (decide (transaction_col self ∈ pl.columns (data self))); [|contradiction].
    simpl. destruct (Account_date_present self Hd) as [de ->]. simpl.
    destruct (Account_amount_present self Hd Ha) as [ae ->]. simpl. eauto. }
  destruct Hok as [lf Hlf]. rewrite Hlf. split.
  - split; eauto.
  - intros e. split; [discriminate|].
    intros [[? _]|[(_ & ? & _)|(_ & _ & ? & _)]]; contradiction.
Qed.

Lemma offline_col name : pl.offline (pl.col name).
Proof. exists (fun df => pl.get_column df name). reflexivity. Qed.

Lemma offline_str_op out f e : pl.offline e → pl.offline (pl.str_op out f e).
Proof.
  intros [g Hg].
  exists (fun df => fst (pl.str_op out f e df (fun _ _ => None) world0)).
  intros df sv w. unfold pl.str_op, bind. rewrite !Hg.
  destruct (g df) as [s|]; [|reflexivity]. destruct (pl.dtype_of s); reflexivity.
Qed.

Lemma offline_cast_Float64 e : pl.offline e → pl.offline (pl.cast_Float64 e).
Proof.
  intros [g Hg].
  exists (fun df => fst (pl.cast_Float64 e df (fun _ _ => None) world0)).
  intros df sv w. unfold pl.cast_Float64, bind. rewrite !Hg.
  destruct (g df) as [s|]; reflexivity.
Qed.

Lemma offline_cast_Datetime_us e : pl.offline e → pl.offline (pl.cast_Datetime_us e).
Proof.
  intros [g Hg].
  exists (fun df => fst (pl.cast_Datetime_us e df (fun _ _ => None) world0)).
  intros df sv w. unfold pl.cast_Datetime_us, bind. rewrite !Hg.
  destruct (g df) as [s|]; [|reflexivity]. destruct (pl.dtype_of s); reflexivity.
Qed.

Lemma offline_arith fop zop a b :
  pl.offline a → pl.offline b → pl.offline (pl.arith fop zop a b).
Proof.
  intros [ga Ha] [gb Hb].
  exists (fun df => fst (pl.arith fop zop a b df (fun _ _ => None) world0)).
  intros df sv w. unfold pl.arith, bind. rewrite !Ha.
  destruct (ga df) as [x|]; [|reflexivity]. rewrite !Hb.
  destruct (gb df) as [y|]; [|reflexivity].
  destruct (pl.dtype_of x), (pl.dtype_of y); reflexivity.
Qed.

Lemma offline_date (self : Account) e : Account_date self = Ok e → pl.offline e.
Proof.
  unfold Account_date.
  destruct (schema_getitem (data_schema self) (date_col self)) as [d|]; [|discriminate].
  simpl. intros He.
  destruct d; inversion He; subst;
    repeat first [apply offline_cast_Datetime_us | apply offline_str_op | apply offline_col].
Qed.

Lemma offline_transaction (self : Account) : pl.offline (Account_transaction self).
Proof.
  unfold Account_transaction, pl.str_strip_chars, pl.str_replace_all.
  destruct (truthy (transaction_col_cleaning_regex self));
    repeat first [apply offline_str_op | apply offline_col].
Qed.

Lemma offline_amount (self : Account) e :
  currency self = None → Account_amount self = Ok e → pl.offline e.
Proof.
  unfold Account_amount. intros Hnone.
  destruct (schema_getitem (data_schema self) (amount_col self)) as [d|]; [|discriminate].
  simpl. rewrite Hnone. intros He. inversion He; subst. clear He.
  unfold pl.sub, pl.str_replace.
  destruct (truthy (fees_col self)); destruct d;
    repeat first [apply offline_arith | apply offline_cast_Float64
                 | apply offline_str_op | apply offline_col].
Qed.

(** X12. An account without a [Currency] works offline: collecting its
    frame gives the same outcome whatever the rate service would answer
    and whatever the memo table holds, and leaves the request log and
    the memo table as they were. *)
Theorem account_without_currency_is_offline (self : Account) (lf : pl.LazyFrame) :
  currency self = None →
  Account_get_data self = Ok lf →
  ∃ outcome : result pl.DataFrame, ∀ (sv : service) (w : world), lf sv w = (outcome, w).
Proof.
  intros Hnone Hget. unfold Account_get_data in Hget.
  destruct (assert_columns self _) as [[]|]; [|discriminate]. simpl in Hget.
  destruct (Account_date self) as [date|] eqn:Hdate; [|discriminate]. simpl in Hget.
  destruct (Account_amount self) as [amount|] eqn:Hamount; [|discriminate].
  simpl in Hget. inversion Hget; subst. clear Hget.
  destruct (offline_date self date Hdate) as [g1 H1].
  destruct (offline_transaction self) as [g2 H2].
  destruct (offline_amount self amount Hnone Hamount) as [g3 H3].
  match goal with
  | |- ∃ _, ∀ sv w, ?lf sv w = _ => exists (fst (lf (fun _ _ => None) world0))
  end.
  intros sv w. unfold bind, lift, ret, pl.select. simpl.
  destruct (pl.sort (date_col self) (data self)) as [sorted|]; [|reflexivity].
  unfold bind, ret, pl.lit. simpl. rewrite !H1.
  destruct (g1 sorted); [|reflexivity]. rewrite !H2.
  destruct (g2 sorted); [|reflexivity]. rewrite !H3.
  destruct (g3 sorted); reflexivity.
Qed.
End AccountCallProperties.

Section OptionalColumns.
Context `{Kernels}.
Import currency models.

Lemma index_of_absent name (names : list string) :
  name ∉ names → pl.index_of name names = None.
Proof.
  induction names as [|n names IH]; simpl; intros Hnot; [reflexivity|].
  destruct (decide (name = n)) as [->|_].
  - exfalso. apply Hnot. left.
  - rewrite IH; [reflexivity|]. intros Hin. apply Hnot. right. exact Hin.
Qed.

Lemma col_absent name (df : pl.DataFrame) sv w :
  name ∉ pl.columns df →
  pl.col name df sv w = (Raise (ColumnNotFoundError name), w).
Proof.
  intros Hnot. unfold pl.col, lift, pl.get_column.
  rewrite index_of_absent by assumption. reflexivity.
Qed.

Lemma arith_fails_right fop zop (a b : pl.Expr) df :
  (∀ sv w, ∃ err w', b df sv w = (Raise err, w')) →
  ∀ sv w, ∃ err w', pl.arith fop zop a b df sv w = (Raise err, w').
Proof.
  intros Hb sv w. unfold pl.arith, bind.
  destruct (a df sv w) as [[x|err] w1]; [|eauto].
  destruct (Hb sv w1) as (err & w' & ->). eauto.
Qed.

Lemma arith_fails_left fop zop (a b : pl.Expr) df :
  (∀ sv w, ∃ err w', a df sv w = (Raise err, w')) →
  ∀ sv w, ∃ err w', pl.arith fop zop a b df sv w = (Raise err, w').
Proof.
  intros Ha sv w. unfold pl.arith, bind.
  destruct (Ha sv w) as (err & w' & ->). eauto.
Qed.

Lemma rate_fails_without_column (c : Currency) (date : pl.Expr) df :
  currency_col c ∉ pl.columns df →
  ∀ sv w, ∃ err w', Currency_rate c date df sv w = (Raise err, w').
Proof.
  intros Hnot sv w. unfold Currency_rate.
  destruct (strategy c);
    unfold pl.when_then_otherwise, pl.ne_str, pl.str_op, bind;
    rewrite col_absent by assumption; eauto.
Qed.

(** X13. The fees column and the currency column are not checked when
    [get_data] is called: an account that names a fees column, or a
    currency column, that its source does not have still gets its lazy
    frame, and every attempt to collect that frame raises. *)
Theorem optional_columns_fail_at_collection (self : Account) (lf : pl.LazyFrame) :
  Account_get_data self = Ok lf →
  (∃ fees, truthy (fees_col self) = Some fees ∧ fees ∉ pl.columns (data self))
  ∨ (∃ c, currency self = Some c ∧ currency_col c ∉ pl.columns (data self)) →
  ∀ (sv : service) (w : world), ∃ err w', lf sv w = (Raise err, w').
Proof.
  intros Hget Hmissing. unfold Account_get_data in Hget.
  destruct (assert_columns self _) as [[]|]; [|discriminate]. simpl in Hget.
  destruct (Account_date self) as [date|] eqn:Hdate; [|discriminate]. simpl in Hget.
  destruct (Account_amount self) as [amount|] eqn:Hamount; [|discriminate].
  simpl in Hget. inversion Hget; subst. clear Hget.
  intros sv w. unfold bind, lift, ret, pl.select. simpl.
  destruct (pl.sort (date_col self) (data self)) as [sorted|] eqn:Hsort; [|eauto].
  apply sort_returns in Hsort as [Hschema _].
  assert (Hcols : pl.columns sorted = pl.columns (data self))
    by (unfold pl.columns; rewrite Hschema; reflexivity).
  assert (Hfail : ∀ sv w, ∃ err w', amount sorted sv w = (Raise err, w')).
  { unfold Account_amount in Hamount.
    destruct (schema_getitem (data_schema self) (amount_col self)) as [d|];
      [|discriminate].
    simpl in Hamount.
    destruct Hmissing as [(fees & Hfees & Hnot)|(c & Hc & Hnot)].
    - rewrite Hfees in Hamount.
      assert (Hsub : ∀ av sv w, ∃ err w',
                 pl.sub av (pl.col fees) sorted sv w = (Raise err, w')).
      { intros av. apply arith_fails_right. intros sv' w0.
        rewrite col_absent by (rewrite Hcols; exact Hnot). eauto. }
      destruct (currency self) as [c|].
      + rewrite Hdate in Hamount. simpl in Hamount. inversion Hamount; subst.
        apply arith_fails_left. apply Hsub.
      + inversion Hamount; subst. apply Hsub.
    - rewrite Hc, Hdate in Hamount. simpl in Hamount. inversion Hamount; subst.
      apply arith_fails_right. apply rate_fails_without_column.
      rewrite Hcols. exact Hnot. }
  unfold bind, ret, pl.lit. simpl.
  destruct (date sorted sv w) as [[c1|] w1]; [|eauto].
  destruct (Account_transaction self sorted sv w1) as [[c2|] w2]; [|eauto].
  destruct (Hfail sv w2) as (err & w' & ->). eauto.
Qed.
End OptionalColumns.

(** * Further properties of collections of accounts (models.py) *)

Section CollectionProperties.
Context `{Kernels}.
Import models.

Lemma result_mapM_raises {A B} (f : A → result B) (l : list A) e :
  pl.result_mapM f l = Raise e
  ↔ ∃ before a after,
      l = (before ++ a :: after)%list
      ∧ Forall (fun b => ∃ y, f b = Ok y) before
      ∧ f a = Raise e.
Proof.
  split.
  - induction l as [|a l IH]; simpl; [discriminate|].
    destruct (f a) as [y|e'] eqn:Hfa.
    + destruct (pl.result_mapM f l) as [ys|e'']; [discriminate|].
      intros He. inversion He; subst.
      destruct (IH eq_refl) as (before & a' & after & -> & Hok & Hfail).
      exists (a :: before), a', after. split; [reflexivity|].
      split; [constructor; eauto | assumption].
    + intros He. inversion He; subst. exists [], a, l. auto.
  - intros (before & a & after & -> & Hok & Hfail).
    induction Hok as [|b before [y Hy] _ IH]; simpl.
    + rewrite Hfail. reflexivity.
    + rewrite Hy, IH. reflexivity.
Qed.

(** X14. What [AccountCollection.get_data] does when it is called, before
    anything is collected: [get_data] is called on the accounts in list
    order and the first raise among them is the raise of the
    collection; an empty collection is refused by [pl.concat]. *)
Theorem collection_call_outcome (c : AccountCollection) (e : exn) :
  AccountCollection_get_data c = Raise e
  ↔ (accounts c = [] ∧ e = ValueError "cannot concat empty list")
    ∨ (∃ before a after,
          accounts c = (before ++ a :: after)%list
          ∧ Forall (fun b => ∃ lf, Account_get_data b = Ok lf) before
          ∧ Account_get_data a = Raise e).
Proof.
  unfold AccountCollection_get_data. split.
  - destruct (pl.result_mapM Account_get_data (accounts c)) as [frames|e'] eqn:Hall.
    + simpl. destruct frames as [|f frames]; [|discriminate].
      intros He. inversion He; subst. left. split; [|reflexivity].
      destruct (accounts c) as [|a l]; [reflexivity|].
      simpl in Hall. destruct (Account_get_data a); [|discriminate].
      destruct (pl.result_mapM Account_get_data l); discriminate.
    + simpl. intros He. inversion He; subst. right.
      apply result_mapM_raises. exact Hall.
  - intros [[Hempty ->]|Hfirst].
    + rewrite Hempty. reflexivity.
    + apply result_mapM_raises in Hfirst. rewrite Hfirst. reflexivity.
Qed.
End CollectionProperties.

(** * Further properties of the reconciler (export/bagels.py) *)

Section ReferenceRows.
Context `{Kernels}.
Import models bagels.

(** X15. What [create_accounts] changes.  The accounts that were there
    stay as they are and in place; behind them comes one new account for
    every requested name that no account had when the call began, in
    the order requested, each with the fixed description, a zero opening
    balance and not hidden.  A name requested twice and not yet known is
    therefore inserted twice.  Categories and records are not touched. *)
Theorem create_accounts_outcome (account_names : list string) (now : Z) (conn : Store) :
  let conn' := create_accounts account_names now conn in
  ∃ added,
    account conn' = (account conn ++ added)%list
    ∧ account_name <$> added
      = filter (fun n => n ∉ account_name <$> account conn) account_names
    ∧ Forall (fun a => description a = "Imported with finwrap"
                       ∧ beginningBalance a = f64_of_int 0 ∧ hidden a = 0
                       ∧ account_createdAt a = now ∧ account_updatedAt a = now) added
    ∧ category conn' = category conn
    ∧ record conn' = record conn.
Proof.
  unfold create_accounts.
  generalize (account_name <$> account conn) as existing. intros existing.
  revert conn. induction account_names as [|n names IH]; intros conn; simpl.
  - exists []. rewrite app_nil_r. repeat split. constructor.
  - destruct (decide (n ∈ existing)) as [Hin|Hnew].
    + destruct (IH conn) as (added & Hacc & Hnames & Hrows & Hcat & Hrec).
      exists added. rewrite filter_cons_False by (intros Hn; contradiction).
      auto.
    + destruct (IH (insert_account n now conn))
        as (added & Hacc & Hnames & Hrows & Hcat & Hrec).
      simpl in Hacc, Hcat, Hrec.
      eexists (_ :: added). rewrite filter_cons_True by assumption.
      split; [rewrite Hacc, <- app_assoc; reflexivity|].
      split; [rewrite fmap_cons, Hnames; reflexivity|].
      split; [constructor; [simpl; auto | assumption]|]. auto.
Qed.

Lemma create_accounts_all_known account_names now conn :
  Forall (fun n => n ∈ account_name <$> account conn) account_names →
  create_accounts account_names now conn = conn.
Proof.
  unfold create_accounts. generalize (account_name <$> account conn) as existing.
  intros existing Hall. induction Hall as [|n names Hn _ IH]; simpl; [reflexivity|].
  destruct (decide (n ∈ existing)); [exact IH | contradiction].
Qed.

(** X16. After [create_accounts] every requested name has an account, and
    running it again for the same names changes nothing: no account is
    created for a name that already has one. *)
Theorem create_accounts_settles (account_names : list string) (now now' : Z) (conn : Store) :
  let conn' := create_accounts account_names now conn in
  Forall (fun n => n ∈ account_name <$> account conn') account_names
  ∧ create_accounts account_names now' conn' = conn'.
Proof.
  intros conn'.
  assert (Hall : Forall (fun n => n ∈ account_name <$> account conn') account_names).
  { destruct (create_accounts_outcome account_names now conn)
      as (added & Hacc & Hnames & _).
    fold conn' in Hacc. rewrite Hacc, fmap_app, Hnames.
    apply Forall_forall. intros n Hn. apply elem_of_app.
    destruct (decide (n ∈ account_name <$> account conn)) as [Hold|Hnew];
      [left; exact Hold|].
    right. apply list_elem_of_filter. auto. }
  split; [exact Hall|]. apply create_accounts_all_known. exact Hall.
Qed.

Lemma new_records_reference_rows account now conn sv w df conn' w' :
  new_records account now conn sv w = (Ok (df, conn'), w') →
  ∃ names,
    conn' = snd (create_cateogry "imported" "blue" now (create_accounts names now conn)).
Proof.
  unfold new_records. intros Hrun.
  apply bind_returns in Hrun as (data & w1 & _ & Hrun).
  apply bind_returns in Hrun as (names & w2 & _ & Hrun).
  exists names.
  destruct (create_cateogry "imported" "blue" now (create_accounts names now conn))
    as [cid conn2] eqn:Hcat.
  apply bind_returns in Hrun as (account_table & w3 & _ & Hrun).
  apply bind_returns in Hrun as (record_table & w4 & _ & Hrun).
  apply bind_returns in Hrun as (counted & w5 & _ & Hrun).
  apply bind_returns in Hrun as (collected_df & w6 & _ & Hrun).
  inversion Hrun; subst. reflexivity.
Qed.

(** X17. The reference rows of an export.  Every run of [save_to_bagel]
    that returns has added exactly one category, named "imported", blue
    and of nature NEED, behind the categories that were there, and has
    kept the accounts that were there at the front of the account
    table. *)
Theorem export_adds_one_imported_category
    (account_ : source) (now : Z) (conn conn' : Store) (sv : service) (w w' : world) :
  save_to_bagel account_ now conn sv w = (Ok conn', w') →
  (∃ new, category conn' = (category conn ++ [new])%list
          ∧ category_name new = "imported" ∧ color new = "blue" ∧ nature new = "NEED")
  ∧ account conn `prefix_of` account conn'.
Proof.
  unfold save_to_bagel. intros Hrun.
  apply bind_returns in Hrun as ([df conn1] & w1 & Hnew & Hrun).
  assert (conn' = conn1) as ->.
  { destruct (pl.is_empty df) eqn:Hempty; inversion Hrun; subst; [|reflexivity].
    apply bool_decide_eq_true_1 in Hempty. apply write_database_empty. exact Hempty. }
  apply new_records_reference_rows in Hnew as [names ->].
  destruct (create_accounts_outcome names now conn) as (added & Hacc & _ & _ & Hcat & _).
  split.
  - eexists. simpl. rewrite Hcat. split; [reflexivity|]. auto.
  - simpl. rewrite Hacc. exists added. reflexivity.
Qed.

Lemma sql_max_spec (ids : list Z) :
  match sql_max ids with
  | None => ids = []
  | Some m => m ∈ ids ∧ Forall (fun i => i ≤ m) ids
  end.
Proof.
  induction ids as [|i ids IH]; simpl; [reflexivity|].
  destruct (sql_max ids) as [m|].
  - destruct IH as [Hin Hle]. split.
    + destruct (Z.max_spec i m) as [[_ ->]|[_ ->]]; [right; exact Hin | left].
    + constructor; [lia|]. eapply Forall_impl; [exact Hle|]. simpl. intros. lia.
  - subst ids. split; [left | constructor; [lia | constructor]].
Qed.

(** X18. [get_max_id] on one of the three tables returns the largest
    [id] in use, an identifier that is in the table and is not exceeded
    by any other; on a table without rows it returns [None], which is no
    [int].  Another table name is refused. *)
Theorem get_max_id_outcome (table_name : string) (conn : Store) :
  match get_max_id table_name conn with
  | Returned None => table_ids table_name conn = Some []
  | Returned (Some m) =>
      ∃ ids, table_ids table_name conn = Some ids ∧ m ∈ ids ∧ Forall (fun i => i ≤ m) ids
  | Raised e =>
      (table_name ∉ ["account"; "record"; "category"]) ∧ e = NoSuchTableError table_name
  end.
Proof.
  unfold get_max_id. destruct (table_ids table_name conn) as [ids|] eqn:Hids.
  - pose proof (sql_max_spec ids) as Hmax. destruct (sql_max ids) as [m|].
    + exists ids. destruct Hmax. auto.
    + subst ids. reflexivity.
  - split; [|reflexivity]. unfold table_ids in Hids.
    destruct (decide (table_name = "account")); [discriminate|].
    destruct (decide (table_name = "record")); [discriminate|].
    destruct (decide (table_name = "category")); [discriminate|].
    intros Hin. repeat (apply elem_of_cons in Hin as [?|Hin]; [contradiction|]).
    inversion Hin.
Qed.

(** X19. With no record in the store the reconciling join is skipped: the
    frame of new rows is the prepared frame itself, row for row, and the
    record table is not processed. *)
Theorem empty_store_skips_the_join
    (account_ : source) (now : Z) (conn conn' : Store) (sv : service) (w w' : world)
    (df : pl.DataFrame) :
  record conn = [] →
  new_records account_ now conn sv w = (Ok (df, conn'), w') →
  ∃ data account_table cid w0,
    get_data account_ = Ok data
    ∧ get_table "account" conn' = Ok account_table
    ∧ prepare_dataframe data account_table cid (pl.lit pl.Datetime (pl.Dt now)) sv w0
      = (Ok df, w').
Proof.
  intros Hnone Hrun.
  pose proof (new_records_keeps_records _ _ _ _ _ _ _ _ Hrun) as Hrecords.
  unfold new_records in Hrun.
  apply bind_returns in Hrun as (data & w1 & Hdata & Hrun).
  apply lift_returns in Hdata as [Hdata ->].
  apply bind_returns in Hrun as (names & w2 & _ & Hrun).
  destruct (create_cateogry "imported" "blue" now (create_accounts names now conn))
    as [cid conn2] eqn:Hcat.
  apply bind_returns in Hrun as (account_table & w3 & Haccounts & Hrun).
  apply lift_returns in Haccounts as [Haccounts ->].
  apply bind_returns in Hrun as (record_table & w4 & Htable & Hrun).
  apply lift_returns in Htable as [Htable ->].
  apply bind_returns in Hrun as (counted & w5 & Hcount & Hrun).
  apply bind_returns in Hrun as (collected_df & w6 & Hcollect & Hrun).
  inversion Hrun; subst. clear Hrun.
  rewrite (count_of_record_table _ _ _ _ _ _ Htable Hcount), Hrecords, Hnone in Hcollect.
  simpl in Hcollect. exists data, account_table, cid, w5. auto.
Qed.
End ReferenceRows.

Section Locating.
Import bagels.

Lemma append_cons (c : ascii) (s t : string) : String c s ++ t = String c (s ++ t).
Proof. reflexivity. Qed.

Lemma append_nil (t : string) : "" ++ t = t.
Proof. reflexivity. Qed.

Lemma append_empty (s : string) : s ++ "" = s.
Proof.
  induction s as [|c s IH]; [reflexivity|]. rewrite append_cons, IH. reflexivity.
Qed.

Lemma append_snoc (s t : string) (c : ascii) :
  (s ++ String c "") ++ t = s ++ String c t.
Proof.
  induction s as [|c' s IH]; [reflexivity|]. rewrite !append_cons, IH. reflexivity.
Qed.

(** A line without line breaks, closed by a line feed, is one line. *)
Lemma splitlines_one_line (cur line : string) :
  Forall (fun c => c ≠ LF ∧ c ≠ CR) (list_ascii_of_string line) →
  splitlines_from cur (line ++ String LF "") = [cur ++ line].
Proof.
  revert cur. induction line as [|c line IH]; intros cur Hfree.
  - rewrite append_nil, append_empty. reflexivity.
  - simpl in Hfree. inversion Hfree as [|? ? [Hlf Hcr] Hrest]; subst.
    rewrite append_cons. cbn [splitlines_from].
    destruct (Ascii.eqb_spec c CR) as [->|_]; [contradiction|].
    destruct (Ascii.eqb_spec c LF) as [->|_]; [contradiction|].
    rewrite (IH _ Hrest), append_snoc. reflexivity.
Qed.

Lemma last_after_line_feed (line : string) (n : nat) :
  Forall (fun c => c ≠ LF ∧ c ≠ CR) (list_ascii_of_string line) →
  ∀ before cur,
    String.length before = n →
    last (splitlines_from cur (before ++ String LF (line ++ String LF ""))) = Some line.
Proof.
  intros Hfree. induction n as [n IH] using lt_wf_ind. intros before cur Hlen.
  destruct before as [|c b].
  - rewrite append_nil. cbn [splitlines_from]. simpl.
    rewrite (splitlines_one_line "" line Hfree). reflexivity.
  - rewrite append_cons. cbn [splitlines_from]. simpl in Hlen.
    destruct (Ascii.eqb_spec c CR) as [->|_].
    + destruct b as [|c' b'].
      * rewrite append_nil. simpl.
        rewrite (splitlines_one_line "" line Hfree). reflexivity.
      * rewrite append_cons.
        destruct (Ascii.eqb_spec c' LF) as [->|_].
        -- rewrite last_cons, (IH (String.length b')) by (simpl in Hlen; lia || reflexivity).
           reflexivity.
        -- rewrite <- append_cons.
           rewrite last_cons, (IH (String.length (String c' b')))
             by (simpl in *; lia || reflexivity).
           reflexivity.
    + destruct (Ascii.eqb_spec c LF) as [->|_].
      * rewrite last_cons, (IH (String.length b)) by (lia || reflexivity). reflexivity.
      * apply (IH (String.length b)); [lia | reflexivity].
Qed.

(** X20. [locate_database] takes the database path from the last line of
    what the located binary prints: for an output that ends with a line
    without line breaks, closed by a line feed, it returns that line
    without its outer whitespace, whatever was printed on the lines
    before it. *)
Theorem locate_database_reads_the_last_line (before line : string) :
  Forall (fun c => c ≠ LF ∧ c ≠ CR) (list_ascii_of_string line) →
  locate_database (Completed (line ++ String LF "")) = Returned (bytes_strip line)
  ∧ locate_database (Completed (before ++ String LF (line ++ String LF "")))
    = Returned (bytes_strip line).
Proof.
  intros Hfree. unfold locate_database, splitlines. split.
  - rewrite (splitlines_one_line "" line Hfree). reflexivity.
  - rewrite (last_after_line_feed line (String.length before) Hfree before "" eq_refl).
    reflexivity.
Qed.
End Locating.

(** * The properties at work on the examples *)

(** * One request per distinct currency (currency.py, "latest") *)

Section LatestProperties.
Context `{Kernels}.
Import currency.

Lemma mapM_cons_runs {A B} (f : A → M B) a l sv w r w' :
  mapM f (a :: l) sv w = (r, w') →
  (∃ e, f a sv w = (Raise e, w'))
  ∨ (∃ b w1 r2, f a sv w = (Ok b, w1) ∧ mapM f l sv w1 = (r2, w')).
Proof.
  simpl. unfold bind, ret. destruct (f a sv w) as [[b|e] w1]; intros Hrun.
  - right. destruct (mapM f l sv w1) as [[bs|e] w2] eqn:Hrest;
      inversion Hrun; subst; eauto 10.
  - left. inversion Hrun; subst; eauto.
Qed.

Lemma remove_dups_cons_length {A} `{EqDecision A} (c : A) (X : list A) :
  (length (remove_dups X) ≤ length (remove_dups (c :: X)))%nat.
Proof. simpl. case_decide; simpl; lia. Qed.

Lemma remove_dups_grows {A} `{EqDecision A} (c : A) (X Y : list A) :
  (∀ x, x ∈ X → x ∈ Y) → (c ∉ X) →
  (S (length (remove_dups X)) ≤ length (remove_dups (c :: Y)))%nat.
Proof.
  intros Hsub Hc.
  change (S (length (remove_dups X))) with (length (c :: remove_dups X)).
  apply submseteq_length, NoDup_submseteq.
  - constructor; [rewrite elem_of_remove_dups; assumption | apply NoDup_remove_dups].
  - intros x Hx. apply elem_of_remove_dups.
    apply elem_of_cons in Hx as [->|Hx]; apply elem_of_cons.
    + left. reflexivity.
    + right. apply Hsub. rewrite elem_of_remove_dups in Hx. assumption.
Qed.

Lemma remove_dups_filter_length {A} `{EqDecision A} (P : A → Prop)
    `{∀ x, Decision (P x)} (l : list A) :
  (length (remove_dups (filter P l)) ≤ length (remove_dups l))%nat.
Proof.
  apply submseteq_length, NoDup_submseteq; [apply NoDup_remove_dups|].
  intros x Hx. apply elem_of_remove_dups. rewrite elem_of_remove_dups in Hx.
  apply list_elem_of_filter in Hx as [_ Hx]. assumption.
Qed.

(** The elements of a column evaluated by the "latest" lambda: every
    request belongs to a distinct value that was not memoised before. *)
Lemma latest_fetches_from (self : Currency) sv (l : list pl.cell) : ∀ w r w',
  mapM (fun c => match c with
                 | pl.Null => ret pl.Null
                 | _ => r <- latest_lambda self c ;; ret (pl.of_rate r)
                 end) l sv w = (r, w') →
  (length (fetched w')
   ≤ length (fetched w)
     + length (remove_dups
         (filter (fun c => memo_get (default "" (py_str c), convert_to self,
                                     Latest, default_rate self) (memo w) = None)
                 l)))%nat.
Proof.
  induction l as [|c l IH]; intros w r w' Hrun.
  - inversion Hrun; subst. simpl. lia.
  - assert (Hskip : ∀ r2, mapM (fun c => match c with
                 | pl.Null => ret pl.Null
                 | _ => r <- latest_lambda self c ;; ret (pl.of_rate r)
                 end) l sv w = (r2, w') →
      (length (fetched w')
       ≤ length (fetched w)
         + length (remove_dups
             (filter (fun c => memo_get (default "" (py_str c), convert_to self,
                                         Latest, default_rate self) (memo w) = None)
                     (c :: l))))%nat).
    { intros r2 Hl. apply IH in Hl. rewrite filter_cons. case_decide; [|assumption].
      etransitivity; [exact Hl|]. apply Nat.add_le_mono_l, remove_dups_cons_length. }
    apply mapM_cons_runs in Hrun as [[e Hc]|(b & w1 & r2 & Hc & Hl)].
    + destruct c as [|x|v|n|us|b]; unfold bind, latest_lambda, ret, raise in Hc;
        simpl in Hc; try (inversion Hc; subst; lia).
      destruct (get_currency_rate x (convert_to self) Latest (default_rate self) sv w)
        as [[v|e'] w1] eqn:Hg; [discriminate|].
      inversion Hc; subst.
      destruct (memo_get (x, convert_to self, Latest, default_rate self) (memo w))
        as [v0|] eqn:Hhit.
      * rewrite (resolver_hit _ _ _ _ _ _ _ Hhit) in Hg. discriminate.
      * apply resolver_fetches_at_most_once in Hg.
        rewrite filter_cons_True by exact Hhit.
        pose proof (remove_dups_grows (pl.Str x) []
                      (filter (fun c => memo_get (default "" (py_str c), convert_to self,
                                         Latest, default_rate self) (memo w) = None) l)) as Hone.
        simpl in Hone. specialize (Hone ltac:(intros ? Hin; inversion Hin)
                                        ltac:(intros Hin; inversion Hin)).
        simpl. simpl in Hone. lia.
    + destruct c as [|x|v|n|us|b0]; unfold bind, latest_lambda, ret, raise in Hc;
        simpl in Hc; try discriminate.
      * inversion Hc; subst. eapply Hskip; eassumption.
      * destruct (memo_get (x, convert_to self, Latest, default_rate self) (memo w))
          as [v0|] eqn:Hhit.
        -- rewrite (resolver_hit _ _ _ _ _ _ _ Hhit) in Hc. inversion Hc; subst.
           eapply Hskip; eassumption.
        -- destruct (get_currency_rate x (convert_to self) Latest (default_rate self) sv w)
             as [[v|e'] w1'] eqn:Hg; [|discriminate].
           inversion Hc; subst.
           pose proof (resolver_fetches_at_most_once _ _ _ _ _ _ _ _ Hg) as Hfetch.
           pose proof (resolver_memoises _ _ _ _ _ _ _ _ Hg) as Hmemo.
           apply IH in Hl.
           rewrite filter_cons_True by exact Hhit.
           pose proof (remove_dups_grows (pl.Str x)
                         (filter (fun c => memo_get (default "" (py_str c), convert_to self,
                                         Latest, default_rate self) (memo w1) = None) l)
                         (filter (fun c => memo_get (default "" (py_str c), convert_to self,
                                         Latest, default_rate self) (memo w) = None) l))
             as Hgrow.
           assert (length (remove_dups
                     (filter (fun c => memo_get (default "" (py_str c), convert_to self,
                                         Latest, default_rate self) (memo w1) = None) l)) <
                   length (remove_dups (pl.Str x ::
                     filter (fun c => memo_get (default "" (py_str c), convert_to self,
                                         Latest, default_rate self) (memo w) = None) l)))%nat
             as Hlt.
           { apply Hgrow.
             - intros c Hc'. apply list_elem_of_filter in Hc' as [Hfresh Hin].
               apply list_elem_of_filter. split; [|assumption].
               destruct (memo_get (default "" (py_str c), convert_to self, Latest,
                                   default_rate self) (memo w)) as [v1|] eqn:Hold;
                 [|reflexivity].
               rewrite (resolver_keeps_memo _ _ _ _ _ _ _ _ _ _ Hg Hold) in Hfresh.
               discriminate.
             - intros Hin. apply list_elem_of_filter in Hin as [Hfresh _].
               simpl in Hfresh. congruence. }
           lia.
Qed.

(** X27. With the "latest" strategy the expression issues at most one
    request for each distinct value of the currency column, however
    many rows hold it and whether the evaluation returns or raises. *)
Theorem latest_fetches_once_per_distinct_currency
    (self : Currency) (date_expr : pl.Expr) (df : pl.DataFrame) sv w r w' cur :
  strategy self = latest →
  pl.get_column df (currency_col self) = Ok cur →
  Currency_rate self date_expr df sv w = (r, w') →
  (length (fetched w')
   ≤ length (fetched w) + length (remove_dups (pl.values cur)))%nat.
Proof.
  intros Hlatest Hcur Hrun.
  unfold Currency_rate in Hrun. rewrite Hlatest in Hrun.
  unfold pl.when_then_otherwise, pl.ne_str, pl.str_op, pl.map_elements, pl.col, pl.lit,
    bind, lift, ret, raise in Hrun.
  rewrite Hcur in Hrun.
  destruct (pl.dtype_of cur); try (inversion Hrun; subst; lia).
  destruct (pl.map_cells _ _ cur); [|inversion Hrun; subst; lia].
  destruct (mapM _ (pl.values cur) sv w) as [[vs|e] w1] eqn:Hthen;
    inversion Hrun; subst; apply latest_fetches_from in Hthen;
    (etransitivity; [exact Hthen|]);
    apply Nat.add_le_mono_l, remove_dups_filter_length.
Qed.
End LatestProperties.

(** * Fees (models.py, [Account.amount]) *)

Section AmountProperties.
Context `{Kernels}.
Import currency models.

(** X28. Without a [Currency], and with a fees column configured, the
    amount expression is the raw amount minus the fees, row by row: on a
    frame whose amount and fees columns are Float64, it returns without
    touching the world, and a row with amount [x] and fees [y] gets
    [x - y]. *)
Theorem amount_is_raw_minus_fees
    (self : Account) (fees : string) (d : pl.dtype) (e : pl.Expr)
    (df : pl.DataFrame) (a b : pl.Series) sv w (i : nat) (x y : f64) :
  currency self = None →
  truthy (fees_col self) = Some fees →
  schema_getitem (data_schema self) (amount_col self) = Ok d →
  d ≠ pl.String_ →
  Account_amount self = Ok e →
  pl.get_column df (amount_col self) = Ok a → pl.dtype_of a = pl.Float64 →
  pl.get_column df fees = Ok b → pl.dtype_of b = pl.Float64 →
  pl.values a !! i = Some (pl.F64 x) →
  pl.values b !! i = Some (pl.F64 y) →
  ∃ s, e df sv w = (Ok s, w)
       ∧ pl.dtype_of s = pl.Float64
       ∧ pl.values s !! i = Some (pl.F64 (f64_sub x y)).
Proof.
  intros Hnone Hfees Hschema Hd Hamount Ha Hda Hb Hdb Hx Hy.
  unfold Account_amount in Hamount. rewrite Hschema in Hamount. simpl in Hamount.
  rewrite Hfees, Hnone in Hamount.
  assert (He : e = pl.sub (pl.col (amount_col self)) (pl.col fees)).
  { destruct d; try contradiction; inversion Hamount; reflexivity. }
  subst e. unfold pl.sub, pl.arith, pl.col, bind, lift, ret.
  rewrite Ha, Hb, Hda, Hdb. simpl.
  eexists. split; [reflexivity|]. split; [reflexivity|]. simpl.
  rewrite lookup_zip_with, Hx. simpl. rewrite Hy. reflexivity.
Qed.
End AmountProperties.

(** * The prepared frame (export/bagels.py) *)

Section PreparedRows.
Context `{Kernels}.
Import currency models bagels.

Lemma mapM_cons_returns {A B} (f : A → M B) a l sv w bs w' :
  mapM f (a :: l) sv w = (Ok bs, w') →
  ∃ b bs' w1, f a sv w = (Ok b, w1) ∧ mapM f l sv w1 = (Ok bs', w') ∧ bs = b :: bs'.
Proof.
  simpl. unfold bind, ret. destruct (f a sv w) as [[b|e] w1]; [|discriminate].
  destruct (mapM f l sv w1) as [[bs'|e] w2] eqn:Hrest; [|discriminate].
  intros Hrun. inversion Hrun; subst. eauto 10.
Qed.

Lemma result_mapM_replicate {A B} (f : A → result B) a b n :
  f a = Ok b → pl.result_mapM f (replicate n a) = Ok (replicate n b).
Proof. intros Hf. induction n as [|n IH]; simpl; [reflexivity|]. rewrite Hf, IH. reflexivity. Qed.

Lemma NoDup_omap_py_str (l : list pl.cell) : NoDup l → NoDup (omap py_str l).
Proof.
  induction 1 as [|c l Hc Hl IH]; simpl; [constructor|].
  destruct (py_str c) as [s|] eqn:Hs; [|assumption].
  constructor; [|assumption].
  intros Hin. apply list_elem_of_omap in Hin as (c' & Hc' & Hs').
  destruct c, c'; try discriminate. simpl in Hs, Hs'. congruence.
Qed.

(** X29. The rows [prepare_dataframe] hands on.  The frame has the ten
    record columns in the order of the [select]; in every row both
    timestamps are the clock reading passed in, the category is the
    one passed in, the amount is the absolute value of the incoming
    amount and [isIncome] says whether that incoming amount was
    positive, and the two flags [isInProgress] and [isTransfer] are
    false. *)
Theorem prepared_rows_shape (data account_table : pl.LazyFrame) (cid now : Z)
    sv w (df : pl.DataFrame) w' :
  prepare_dataframe data account_table cid (pl.lit pl.Datetime (pl.Dt now)) sv w
  = (Ok df, w') →
  pl.columns df = ["createdAt"; "updatedAt"; "label"; "amount"; "date"; "accountId";
                   "categoryId"; "isIncome"; "isInProgress"; "isTransfer"]
  ∧ ∀ r, r ∈ pl.rows df →
      ∃ l c d acc,
        r = [pl.Dt now; pl.Dt now; l;
             match c with
             | pl.F64 v => pl.F64 (f64_abs v)
             | pl.I64 n => pl.I64 (wrap64 (Z.abs n))
             | _ => pl.Null
             end;
             d; acc; pl.I64 cid;
             match c with
             | pl.F64 v => pl.Bool (f64_gt0 v)
             | pl.I64 n => pl.Bool (0 <? n)
             | _ => pl.Null
             end;
             pl.Bool false; pl.Bool false].
Proof.
  intros Hrun. unfold prepare_dataframe in Hrun.
  apply bind_returns in Hrun as (d0 & w1 & _ & Hrun).
  apply bind_returns in Hrun as (a0 & w2 & _ & Hrun).
  apply bind_returns in Hrun as (a1 & w3 & _ & Hrun).
  apply bind_returns in Hrun as (joined & w4 & _ & Hrun).
  apply bind_returns in Hrun as (selected & w5 & Hsel & Hrun).
  inversion Hrun; subst; clear Hrun.
  unfold pl.select in Hsel.
  apply bind_returns in Hsel as (cols & w6 & Hcols & Hsel).
  inversion Hsel; subst; clear Hsel.
  apply mapM_cons_returns in Hcols as (c1 & ? & ? & H1 & Hcols & ->).
  apply mapM_cons_returns in Hcols as (c2 & ? & ? & H2 & Hcols & ->).
  apply mapM_cons_returns in Hcols as (c3 & ? & ? & _ & Hcols & ->).
  apply mapM_cons_returns in Hcols as (c4 & ? & ? & H4 & Hcols & ->).
  apply mapM_cons_returns in Hcols as (c5 & ? & ? & _ & Hcols & ->).
  apply mapM_cons_returns in Hcols as (c6 & ? & ? & _ & Hcols & ->).
  apply mapM_cons_returns in Hcols as (c7 & ? & ? & H7 & Hcols & ->).
  apply mapM_cons_returns in Hcols as (c8 & ? & ? & H8 & Hcols & ->).
  apply mapM_cons_returns in Hcols as (c9 & ? & ? & H9 & Hcols & ->).
  apply mapM_cons_returns in Hcols as (c10 & ? & ? & H10 & Hcols & ->).
  inversion Hcols; subst; clear Hcols.
  simpl in H1, H2, H4, H7, H8, H9, H10.
  unfold pl.lit, ret in H1, H2, H9, H10.
  inversion H1; subst; clear H1. inversion H2; subst; clear H2.
  inversion H9; subst; clear H9. inversion H10; subst; clear H10.
  unfold pl.cast_Int64, pl.lit, bind, lift, ret, pl.map_cells in H7. simpl in H7.
  rewrite (result_mapM_replicate _ _ (pl.I64 cid)) in H7 by reflexivity.
  inversion H7; subst; clear H7.
  unfold pl.abs, pl.gt_zero, pl.col, bind, lift, raise, pl.map_cells in H4, H8.
  destruct (pl.get_column joined "amount") as [s|] eqn:Hamt; [|discriminate].
  destruct (pl.is_numeric (pl.dtype_of s)) eqn:Hnum; [|discriminate].
  rewrite (result_mapM_total
             (fun c => match c with
                       | pl.F64 v => pl.F64 (f64_abs v)
                       | pl.I64 n => pl.I64 (wrap64 (Z.abs n))
                       | _ => pl.Null
                       end)) in H4 by (intros [| | | | |]; reflexivity).
  rewrite (result_mapM_total
             (fun c => match c with
                       | pl.F64 v => pl.Bool (f64_gt0 v)
                       | pl.I64 n => pl.Bool (0 <? n)
                       | _ => pl.Null
                       end)) in H8 by (intros [| | | | |]; reflexivity).
  inversion H4; subst; clear H4. inversion H8; subst; clear H8.
  split; [reflexivity|].
  intros r Hr. simpl in Hr.
  apply list_elem_of_fmap in Hr as (r0 & -> & Hr).
  apply list_elem_of_fmap in Hr as (i & -> & Hi).
  apply elem_of_seq in Hi as [_ Hi]. simpl in Hi. unfold pl.height in Hi.
  simpl. rewrite !lookup_replicate_2 by exact Hi. rewrite !list_lookup_fmap.
  destruct (pl.values s !! i) as [c|]; simpl.
  - eexists _, c, _, _.
    destruct (pl.dtype_of s); try discriminate; reflexivity.
  - eexists _, pl.Null, _, _.
    destruct (pl.dtype_of s); try discriminate; reflexivity.
Qed.

(** X30. [prepare_account_names] returns every account name once: the
    list it hands to [create_accounts] has no repetition. *)
Theorem account_names_are_distinct (data : pl.LazyFrame) sv w names w' :
  prepare_account_names data sv w = (Ok names, w') → NoDup names.
Proof.
  intros Hrun. unfold prepare_account_names in Hrun.
  apply bind_returns in Hrun as (d & w1 & _ & Hrun).
  apply bind_returns in Hrun as (frame & w2 & Hsel & Hrun).
  apply bind_returns in Hrun as (column & w3 & Hcol & Hrun).
  inversion Hrun; subst; clear Hrun.
  apply lift_returns in Hcol as [Hcol _].
  unfold pl.select in Hsel.
  apply bind_returns in Hsel as (cols & w4 & Hcols & Hsel).
  inversion Hsel; subst; clear Hsel.
  apply mapM_cons_returns in Hcols as (c & ? & ? & _ & Hcols & ->).
  inversion Hcols; subst; clear Hcols.
  unfold pl.get_column in Hcol. simpl in Hcol.
  destruct (decide ("account_name" = "account_name")); [|contradiction].
  inversion Hcol; subst; clear Hcol. simpl.
  apply NoDup_omap_py_str, NoDup_fmap_2_strong; [|apply NoDup_remove_dups].
  intros r1 r2 Hr1 Hr2 Heq.
  apply elem_of_remove_dups, list_elem_of_fmap in Hr1 as (i1 & -> & _).
  apply elem_of_remove_dups, list_elem_of_fmap in Hr2 as (i2 & -> & _).
  simpl in Heq. simpl. congruence.
Qed.
End PreparedRows.

Section Instances.
Import runtime currency models bagels scenario.

Lemma resolver_miss_issues_one_request_witness :
  fetched (snd (get_currency_rate "EUR" "USD" (PyDate 19723) None
                  (answering 200 (Some (dec 11 1))) world0))
  = [BASE_URL_format "eur" "2024-01-01"].
Proof.
  apply (resolver_miss_issues_one_request "EUR" "USD" (PyDate 19723) None
           (answering 200 (Some (dec 11 1))) world0).
  reflexivity.
Defined.

Lemma resolver_raise_is_retried_witness :
  let sv := answering 200 None in
  let w1 := snd (get_currency_rate "EUR" "USD" Latest None sv world0) in
  memo w1 = memo world0
  ∧ fetched (snd (get_currency_rate "EUR" "USD" Latest None sv w1))
    = [latest_url "eur"; latest_url "eur"].
Proof.
  intros sv w1.
  apply (resolver_raise_is_retried "EUR" "USD" Latest None sv world0 w1
           (ValueError "Unable to fetch exchange rate for EUR/USD and no default_rate was specified.")).
  vm_compute. reflexivity.
Defined.

Lemma resolver_leaves_other_tuples_alone_witness :
  let sv := answering 200 (Some (dec 11 1)) in
  memo_get ("usd", "USD", Latest, None)
    (memo (snd (get_currency_rate "USD" "USD" Latest None sv world0)))
  = memo_get ("usd", "USD", Latest, None) (memo world0).
Proof.
  intros sv.
  apply (resolver_leaves_other_tuples_alone "USD" "USD" Latest None sv world0
           ("usd", "USD", Latest, None)).
  discriminate.
Defined.

Lemma rejected_answer_is_memoised_as_default_witness :
  let sv := fun _ _ => Some not_found in
  let w1 := snd (get_currency_rate "EUR" "USD" Latest None sv world0) in
  fst (get_currency_rate "EUR" "USD" Latest None sv world0) = Ok None
  ∧ get_currency_rate "EUR" "USD" Latest None (answering 200 (Some (dec 11 1))) w1
    = (Ok None, w1).
Proof.
  intros sv.
  apply (rejected_answer_is_memoised_as_default "EUR" "USD" Latest None sv
           (answering 200 (Some (dec 11 1))) world0 not_found).
  - reflexivity.
  - reflexivity.
  - vm_compute. discriminate.
Defined.

Lemma batch_returns_one_rate_per_pair_witness :
  length [Some (dec 11 1)] = min (length [Some "EUR"; Some "GBP"]) (length [Latest]).
Proof.
  apply (batch_returns_one_rate_per_pair [Some "EUR"; Some "GBP"] "USD" [Latest] None
           (answering 200 (Some (dec 11 1))) world0
           (snd (get_currency_rate "EUR" "USD" Latest None
                   (answering 200 (Some (dec 11 1))) world0))
           [Some (dec 11 1)]).
  vm_compute. reflexivity.
Defined.

Lemma wrapped_pair_absent_witness :
  fst (get_currency_rate__wrapped "eur" "Usd" Latest None (answering 200 None) world0)
  = Raise (ValueError
             ("Unable to fetch exchange rate for " ++ upper (lower "eur") ++ "/"
                ++ upper (lower "Usd") ++ " and no default_rate was specified.")).
Proof.
  apply (wrapped_pair_absent "eur" "Usd" Latest None (answering 200 None) world0
           {| status_code := 200; json := Some (fun _ _ => None) |} (fun _ _ => None));
    reflexivity.
Defined.

Lemma latest_rate_of_target_currency_is_one_witness :
  pl.values {| pl.dtype_of := pl.Float64; pl.values := [pl.F64 (dec 1 0)] |} !! 0%nat
  = Some (pl.F64 f64_one).
Proof.
  apply (latest_rate_of_target_currency_is_one (to_usd latest None) (pl.col "date")
           usd_row (answering 200 (Some (dec 12 1))) world0
           {| pl.dtype_of := pl.Float64; pl.values := [pl.F64 (dec 1 0)] |}
           {| fetched := [latest_url "usd"];
              memo := [(("USD", "USD", Latest, None), Some (dec 12 1))] |}
           {| pl.dtype_of := pl.String_; pl.values := [pl.Str "USD"] |} 0%nat).
  - reflexivity.
  - vm_compute. reflexivity.
  - vm_compute. reflexivity.
  - reflexivity.
Defined.

Lemma get_data_has_the_canonical_shape_witness :
  (∃ amount_dtype,
      pl.schema (collected_offline main)
      = [("account_name", pl.String_); ("date", pl.Datetime);
         ("transaction", pl.String_); ("amount", amount_dtype)])
  ∧ ∀ r, r ∈ pl.rows (collected_offline main) → ∃ d t a, r = [pl.Str "Main"; d; t; a].
Proof.
  apply (get_data_has_the_canonical_shape main (collected (Account_get_data main))
           unreachable world0 world0 (collected_offline main)).
  - reflexivity.
  - vm_compute. reflexivity.
Defined.

Lemma get_data_rows_are_distinct_witness :
  NoDup (pl.rows (collected_offline main))
  ∧ (pl.height (collected_offline main) ≤ pl.height coffee_and_rent)%nat.
Proof.
  apply (get_data_rows_are_distinct main (collected (Account_get_data main))
           unreachable world0 world0 (collected_offline main)).
  - reflexivity.
  - vm_compute. reflexivity.
Defined.

Lemma account_without_currency_is_offline_witness :
  ∃ outcome : result pl.DataFrame,
    ∀ (sv : service) (w : world), collected (Account_get_data main) sv w = (outcome, w).
Proof.
  apply (account_without_currency_is_offline main (collected (Account_get_data main)));
    reflexivity.
Defined.

Lemma optional_columns_fail_at_collection_witness :
  ∃ err w',
    collected (Account_get_data main_with_missing_fees) (answering 200 (Some (dec 11 1)))
      world0
    = (Raise err, w').
Proof.
  apply (optional_columns_fail_at_collection main_with_missing_fees
           (collected (Account_get_data main_with_missing_fees))).
  - reflexivity.
  - left. exists "fees". split; [reflexivity|]. vm_compute.
    intros Hin. repeat (apply elem_of_cons in Hin as [Heq|Hin]; [discriminate Heq|]).
    inversion Hin.
Defined.

Lemma collection_collects_witness :
  collected (AccountCollection_get_data twice_the_same) unreachable world0
  = (Ok {| pl.schema := pl.schema (collected_offline
                                     (account_over "Main" None
                                        (textual [("2024-01-01", "5.00", "Coffee")])));
           pl.rows := concat (pl.rows <$>
                                [collected_offline
                                   (account_over "Main" None
                                      (textual [("2024-01-01", "5.00", "Coffee")]));
                                 collected_offline
                                   (account_over "Main" None
                                      (textual [("2024-01-01", "5.00", "Coffee")]))]) |},
     world0).
Proof.
  apply (collection_collects twice_the_same unreachable world0 world0).
  - vm_compute. reflexivity.
  - constructor; [reflexivity | constructor].
Defined.

Lemma save_to_bagel_never_adds_a_record_witness :
  record (exported store_with_coffee) = record store_with_coffee.
Proof.
  apply (save_to_bagel_never_adds_a_record incoming now store_with_coffee
           unreachable world0 (exported store_with_coffee) world0).
  vm_compute. reflexivity.
Defined.

Lemma export_adds_one_imported_category_witness :
  (∃ new, category (exported store_with_coffee)
          = (category store_with_coffee ++ [new])%list
          ∧ category_name new = "imported" ∧ color new = "blue" ∧ nature new = "NEED")
  ∧ account store_with_coffee `prefix_of` account (exported store_with_coffee).
Proof.
  apply (export_adds_one_imported_category incoming now store_with_coffee
           (exported store_with_coffee) unreachable world0 world0).
  vm_compute. reflexivity.
Defined.

Lemma new_records_are_the_unmatched_rows_witness :
  ∃ (incoming_rows existing : pl.DataFrame) li ri,
    pl.check_keys ["label"; "amount"; "date"] incoming_rows existing = Ok (li, ri)
    ∧ (∃ data account_table cid w0 w1,
          get_data incoming = Ok data
          ∧ get_table "account" (snd (reconciled store_with_coffee)) = Ok account_table
          ∧ prepare_dataframe data account_table cid (pl.lit pl.Datetime (pl.Dt now))
              unreachable w0
            = (Ok incoming_rows, w1))
    ∧ (∃ record_table w1 w2,
          get_table "record" (snd (reconciled store_with_coffee)) = Ok record_table
          ∧ process_record_table record_table unreachable w1 = (Ok existing, w2))
    ∧ ∀ r, r ∈ pl.rows (fst (reconciled store_with_coffee)) ↔
           r ∈ pl.rows incoming_rows
           ∧ ∀ e, e ∈ pl.rows existing →
                  pl.keys_match (pl.key_of li r) (pl.key_of ri e) = false.
Proof.
  apply (new_records_are_the_unmatched_rows incoming now store_with_coffee
           unreachable world0 (fst (reconciled store_with_coffee))
           (snd (reconciled store_with_coffee)) world0).
  - discriminate.
  - vm_compute. reflexivity.
Defined.

Lemma empty_store_skips_the_join_witness :
  ∃ data account_table cid w0,
    get_data incoming = Ok data
    ∧ get_table "account" (snd (reconciled empty_store)) = Ok account_table
    ∧ prepare_dataframe data account_table cid (pl.lit pl.Datetime (pl.Dt now))
        unreachable w0
      = (Ok (fst (reconciled empty_store)), world0).
Proof.
  apply (empty_store_skips_the_join incoming now empty_store
           (snd (reconciled empty_store)) unreachable world0 world0
           (fst (reconciled empty_store))).
  - reflexivity.
  - vm_compute. reflexivity.
Defined.

Lemma create_cateogry_returns_existing_witness :
  fst (create_cateogry "imported" "blue" now store_with_coffee) = 1.
Proof.
  apply (create_cateogry_returns_existing "imported" "blue" now store_with_coffee
           [] imported_category []).
  - reflexivity.
  - constructor.
  - reflexivity.
Defined.

Lemma locate_database_reads_the_last_line_witness :
  locate_database (Completed ("  /home/u/bagels/db.db " ++ String LF ""))
  = Returned (bytes_strip "  /home/u/bagels/db.db ")
  ∧ locate_database
      (Completed ("Bagels 0.3" ++ String LF ("  /home/u/bagels/db.db " ++ String LF "")))
    = Returned (bytes_strip "  /home/u/bagels/db.db ").
Proof.
  apply (locate_database_reads_the_last_line "Bagels 0.3" "  /home/u/bagels/db.db ").
  simpl. repeat (constructor; [split; discriminate|]). constructor.
Defined.

(** What the loader does with a few lists of paths. *)
Example read_data_examples :
  _read_data Path_suffix reading (Paths ["data/jan.csv"; "data/feb.csv"])
  = Returned (CSV, ["data/jan.csv"; "data/feb.csv"])
  ∧ _read_data Path_suffix reading (OnePath "bank.v2/statement.xlsx")
    = Returned (EXCEL, ["bank.v2/statement.xlsx"])
  ∧ _read_data Path_suffix reading (Paths ["a.csv"; "b.parquet"])
    = Raised (Inside (ValueError "All files must have the same suffix"))
  ∧ _read_data Path_suffix reading (Paths ["notes.txt"; "b.csv"])
    = Raised (Inside (ValueError
                        "Unsupported file type for ['notes.txt', 'b.csv'] with suffix .txt"))
  ∧ _read_data Path_suffix reading (Paths ["archive/.csv"])
    = Raised (Inside (ValueError
                        "Unsupported file type for ['archive/.csv'] with suffix ")).
Proof. vm_compute. repeat split. Qed.
Lemma latest_fetches_once_per_distinct_currency_witness :
  (length (fetched {| fetched := [latest_url "eur"];
                      memo := [(("EUR", "USD", Latest, None), Some (dec 11 1))] |})
   ≤ length (fetched world0)
     + length (remove_dups (pl.values {| pl.dtype_of := pl.String_;
                                         pl.values := [pl.Str "EUR"; pl.Str "EUR"] |})))%nat.
Proof.
  apply (latest_fetches_once_per_distinct_currency (to_usd latest None) (pl.col "date")
           two_eur_rows (answering 200 (Some (dec 11 1))) world0
           (Ok {| pl.dtype_of := pl.Float64;
                  pl.values := [pl.F64 (dec 11 1); pl.F64 (dec 11 1)] |})).
  - reflexivity.
  - vm_compute. reflexivity.
  - vm_compute. reflexivity.
Defined.

Lemma amount_is_raw_minus_fees_witness :
  ∃ s, pl.sub (pl.col "amount") (pl.col "fees") with_fees unreachable world0
       = (Ok s, world0)
       ∧ pl.dtype_of s = pl.Float64
       ∧ pl.values s !! 0%nat = Some (pl.F64 (f64_sub (dec 500 2) (dec 25 2))).
Proof.
  apply (amount_is_raw_minus_fees main_with_fees "fees" pl.Float64
           (pl.sub (pl.col "amount") (pl.col "fees")) with_fees
           {| pl.dtype_of := pl.Float64; pl.values := [pl.F64 (dec 500 2)] |}
           {| pl.dtype_of := pl.Float64; pl.values := [pl.F64 (dec 25 2)] |}
           unreachable world0 0%nat (dec 500 2) (dec 25 2)).
  - reflexivity.
  - reflexivity.
  - reflexivity.
  - intros Heq. discriminate Heq.
  - reflexivity.
  - vm_compute. reflexivity.
  - reflexivity.
  - vm_compute. reflexivity.
  - reflexivity.
  - reflexivity.
  - reflexivity.
Defined.

Lemma prepared_rows_shape_witness :
  pl.columns prepared
  = ["createdAt"; "updatedAt"; "label"; "amount"; "date"; "accountId";
     "categoryId"; "isIncome"; "isInProgress"; "isTransfer"]
  ∧ ∀ r, r ∈ pl.rows prepared →
      ∃ l c d acc,
        r = [pl.Dt now; pl.Dt now; l;
             match c with
             | pl.F64 v => pl.F64 (f64_abs v)
             | pl.I64 n => pl.I64 (wrap64 (Z.abs n))
             | _ => pl.Null
             end;
             d; acc; pl.I64 1;
             match c with
             | pl.F64 v => pl.Bool (f64_gt0 v)
             | pl.I64 n => pl.Bool (0 <? n)
             | _ => pl.Null
             end;
             pl.Bool false; pl.Bool false].
Proof.
  apply (prepared_rows_shape (collected (Account_get_data main))
           (collected (get_table "account" store_with_coffee)) 1 now
           unreachable world0 prepared world0).
  vm_compute. reflexivity.
Defined.

Lemma account_names_are_distinct_witness : NoDup ["Main"].
Proof.
  apply (account_names_are_distinct (collected (Account_get_data main))
           unreachable world0 ["Main"] world0).
  vm_compute. reflexivity.
Defined.
End Instances.
